(** * The Naver news scraping DAG (dags/news_scraping_dag.py)

    A shallow embedding of the three tasks of the DAG
    [naver_news_scraping_dag_with_db] and of the way the DAG wires them:

      get_all_article_urls  >>  filter_new_urls  >>  scrape_and_save_news.expand

    The tasks talk to two collaborators that are not part of the file:
    the crawler ([get_urls_from_section], [get_news_content]), taken as
    section variables, and PostgreSQL behind Airflow's [PostgresHook],
    modelled by the table [naver_news] held in the [world]. *)

From stdpp Require Import base gmap strings list sets.

Open Scope string_scope.
Open Scope list_scope.
Open Scope nat_scope.

(** ** Python values and exceptions *)

(** The values the crawler puts in its dictionaries: text or [None]. *)
Inductive pyval : Type :=
  | PyNone
  | PyStr (s : string).

#[global] Instance pyval_eq_dec : EqDecision pyval.
Proof. solve_decision. Defined.

(** Python truthiness: [None] and the empty string are falsy. *)
Definition truthy (v : pyval) : bool :=
  match v with
  | PyNone => false
  | PyStr s => negb (bool_decide (s = ""))
  end.

(** The exceptions a task can die of. [SourceError] stands for whatever the
    crawler raises (network, HTTP status, markup); [OperationalError] is what
    the hook raises when PostgreSQL cannot be reached; [IntegrityError] is a
    constraint violation other than the conflict on [url];
    [UnmappableXComLengthPushed] is what Airflow raises when a task returns,
    for a mapped task, a list that is too long. *)
Inductive exn : Type :=
  | KeyError (key : string)
  | OperationalError
  | IntegrityError
  | SourceError (msg : string)
  | UnmappableXComLengthPushed.

#[global] Instance exn_eq_dec : EqDecision exn.
Proof. solve_decision. Defined.

Inductive result (A : Type) : Type :=
  | Ok (a : A)
  | Raise (e : exn).
Arguments Ok {A} a.
Arguments Raise {A} e.

Definition is_ok {A} (r : result A) : bool :=
  match r with Ok _ => true | Raise _ => false end.

(** [d.get(k)]: [None] when the key is missing. *)
Definition dict_get (d : gmap string pyval) (k : string) : pyval :=
  default PyNone (d !! k).

(** [not news_data or not news_data.get("title")], for the [news_data] that
    [get_news_content] returned: [None], or a dictionary (an empty
    dictionary is falsy as well). *)
Definition no_article_or_no_title (news_data : option (gmap string pyval)) : bool :=
  match news_data with
  | None => true
  | Some d => bool_decide (d = ∅) || negb (truthy (dict_get d "title"))
  end.

(** ** The table and the world *)

(** Modelled from the spec: the table [naver_news], whose DDL is not part of
    the DAG file. It is keyed by [url] (unique, hence never NULL, as
    [ON CONFLICT (url)] needs) and has the columns [title], [summary],
    [content] and [news_time]. *)
Record row : Type := Row {
  url : string;
  title : pyval;
  summary : pyval;
  content : pyval;
  news_time : pyval
}.

#[global] Instance row_eq_dec : EqDecision row.
Proof. solve_decision. Defined.

(** What a task did to the outside, newest first. *)
Inductive event : Type :=
  | Discover (section_id : Z)
  | Fetch (u : string)
  | Select (urls : list string)
  | Insert (p_url p_title p_summary p_content p_time : pyval).

#[global] Instance event_eq_dec : EqDecision event.
Proof. solve_decision. Defined.

(** The world a run executes in: the rows of [naver_news] in insertion
    order, whether PostgreSQL can be reached at each instant, and the calls
    made so far. One call to a collaborator is one instant. *)
Record world : Type := World {
  naver_news : list row;
  db_up : nat → bool;
  trace : list event
}.

Definition now (w : world) : nat := length (trace w).

Definition tick (e : event) (w : world) : world :=
  {| naver_news := naver_news w; db_up := db_up w; trace := e :: trace w |}.

Definition append_row (r : row) (w : world) : world :=
  {| naver_news := naver_news w ++ [r]; db_up := db_up w; trace := trace w |}.

Definition keys (t : list row) : list string := url <$> t.

Definition records_of (u : string) (t : list row) : list row :=
  filter (λ r, url r = u) t.

Definition is_fetch_of (u : string) (e : event) : bool := bool_decide (e = Fetch u).

Definition is_insert (e : event) : bool :=
  match e with Insert _ _ _ _ _ => true | _ => false end.

(** How often [get_news_content u] has been called. *)
Definition fetches (u : string) (w : world) : nat :=
  length (filter (λ e, is_fetch_of u e = true) (trace w)).

(** How many [INSERT] statements have been sent. *)
Definition inserts (w : world) : nat :=
  length (filter (λ e, is_insert e = true) (trace w)).

(** ** Tasks: state and exceptions *)

(** A Python computation: it returns or raises, and what it did to the world
    stays done either way. *)
Definition M (A : Type) : Type := world → result A * world.

#[global] Instance M_ret : MRet M := λ A a w, (Ok a, w).

#[global] Instance M_bind : MBind M := λ A B k m w,
  match m w with
  | (Ok a, w') => k a w'
  | (Raise e, w') => (Raise e, w')
  end.

Definition raise {A} (e : exn) : M A := λ w, (Raise e, w).

(** [d[k]]: [KeyError] when the key is missing. *)
Definition dict_item (d : gmap string pyval) (k : string) : M pyval :=
  match d !! k with
  | Some v => mret v
  | None => raise (KeyError k)
  end.

(** *** PostgresHook *)

(** [hook.get_records("SELECT url FROM naver_news WHERE url = ANY(%s)",
    parameters=(urls,))]: the [url] column of the rows whose url is one of
    [urls] (each record [row] is a 1-tuple, [row[0]] its url). *)
Definition hook_get_records (urls : list string) : M (list string) := λ w,
  if db_up w (now w)
  then (Ok (filter (λ u, u ∈ urls) (keys (naver_news w))), tick (Select urls) w)
  else (Raise OperationalError, tick (Select urls) w).

(** [hook.run("INSERT INTO naver_news (url, title, summary, content,
    news_time) VALUES (%s, %s, %s, %s, %s) ON CONFLICT (url) DO NOTHING;",
    parameters=(...))]. *)
Definition hook_run (p_url p_title p_summary p_content p_time : pyval) : M unit := λ w,
  let w' := tick (Insert p_url p_title p_summary p_content p_time) w in
  if db_up w (now w) then
    match p_url with
    | PyNone => (Raise IntegrityError, w')
    | PyStr u =>
        if bool_decide (u ∈ keys (naver_news w))
        then (Ok tt, w')
        else (Ok tt, append_row (Row u p_title p_summary p_content p_time) w')
    end
  else (Raise OperationalError, w').

(** [range(a, b)] *)
Definition range (a b : Z) : list Z := seqZ a (b - a)%Z.

Inductive dag_state : Type := success | failed.

(** The task instances of one DAG run: a task whose upstream failed does not
    run ([None]); [scrape_and_save_news] has one instance per url. *)
Record dag_run : Type := DagRun {
  ti_get_all_article_urls : result (list string);
  ti_filter_new_urls : option (result (list string));
  ti_scrape_and_save_news : list (result unit)
}.

(** A run succeeds when no task instance failed. *)
Definition state (r : dag_run) : dag_state :=
  if is_ok (ti_get_all_article_urls r)
     && from_option is_ok false (ti_filter_new_urls r)
     && forallb is_ok (ti_scrape_and_save_news r)
  then success else failed.

(** Airflow's [core.max_map_length], at its default: the longest list a
    task may return for [expand]. *)
Definition max_map_length : nat := 1024.

(** What becomes of the return value of a task that feeds [expand]: when the
    task has returned, Airflow records the length of the list for the mapped
    task, and fails the task instance if the list is longer than
    [max_map_length]. *)
Definition push_for_expand (r : result (list string)) : result (list string) :=
  match r with
  | Ok urls =>
      if length urls <=? max_map_length then Ok urls
      else Raise UnmappableXComLengthPushed
  | Raise e => Raise e
  end.

(** [task.expand(url=urls)]: one task instance per element. The instances do
    not depend on each other, so a failed one does not stop its siblings.
    Each touches the table in a single statement; the instances are run here
    one after the other, in the order of the list. *)
Fixpoint expand (task : string → M unit) (urls : list string) (w : world)
  : list (result unit) * world :=
  match urls with
  | [] => ([], w)
  | u :: rest =>
      let (r, w1) := task u w in
      let (rs, w2) := expand task rest w1 in
      (r :: rs, w2)
  end.

Section dag.

(** [src.crawling.crawling], imported by the DAG file. *)
Variable get_urls_from_section : Z → result (list string).
Variable get_news_content : string → result (option (gmap string pyval)).

Definition call_get_urls_from_section (section_id : Z) : M (list string) :=
  λ w, (get_urls_from_section section_id, tick (Discover section_id) w).

Definition call_get_news_content (u : string) : M (option (gmap string pyval)) :=
  λ w, (get_news_content u, tick (Fetch u) w).

(** The loop of [get_all_article_urls], [all_urls] being the accumulator. *)
Fixpoint for_section_id (section_ids : list Z) (all_urls : list string)
  : M (list string) :=
  match section_ids with
  | [] => mret all_urls
  | section_id :: rest =>
      urls ← call_get_urls_from_section section_id;
      for_section_id rest (all_urls ++ urls)
  end.

Definition get_all_article_urls : M (list string) :=
  all_urls ← for_section_id (range 100%Z 106%Z) [];
  let unique_urls := elements (list_to_set all_urls : gset string) in
  mret unique_urls.

Definition filter_new_urls (urls : list string) : M (list string) :=
  if bool_decide (urls = []) then mret []
  else
    existing_urls_tuples ← hook_get_records urls;
    let existing_urls : gset string := list_to_set existing_urls_tuples in
    let new_urls := filter (λ u, u ∉ existing_urls) urls in
    mret new_urls.

Definition scrape_and_save_news (u : string) : M unit :=
  news_data ← call_get_news_content u;
  if no_article_or_no_title news_data then mret tt
  else
    (* [news_data] is a dictionary from here on *)
    let d := default ∅ news_data in
    p_url ← dict_item d "url";
    p_title ← dict_item d "title";
    p_summary ← dict_item d "summary";
    p_content ← dict_item d "content";
    p_time ← dict_item d "time";
    hook_run p_url p_title p_summary p_content p_time.

(** The part of the DAG downstream of [get_all_article_urls]. *)
Definition downstream (all_urls : list string) (w : world) : dag_run * world :=
  let (returned, w1) := filter_new_urls all_urls w in
  match push_for_expand returned with
  | Raise e => (DagRun (Ok all_urls) (Some (Raise e)) [], w1)
  | Ok new_urls_to_scrape =>
      let (rs, w2) := expand scrape_and_save_news new_urls_to_scrape w1 in
      (DagRun (Ok all_urls) (Some (Ok new_urls_to_scrape)) rs, w2)
  end.

Definition naver_news_scraping_dag_with_db (w : world) : dag_run * world :=
  match get_all_article_urls w with
  | (Raise e, w1) => (DagRun (Raise e) None [], w1)
  | (Ok all_urls, w1) => downstream all_urls w1
  end.

(** The row [scrape_and_save_news u] sends to the table, if it gets that
    far: the article has a title, all five fields, and a url. *)
Definition row_of (u : string) : option row :=
  match get_news_content u with
  | Ok (Some d) =>
      if no_article_or_no_title (Some d) then None
      else
        match d !! "url", d !! "title", d !! "summary", d !! "content", d !! "time" with
        | Some (PyStr v), Some t, Some s, Some c, Some n => Some (Row v t s c n)
        | _, _, _, _, _ => None
        end
  | _ => None
  end.

End dag.

(** ** A small newsroom to run the DAG on *)

Module fixture.

Definition article (u t : string) : gmap string pyval :=
  list_to_map [("url", PyStr u); ("title", PyStr t); ("summary", PyStr "s");
               ("content", PyStr "c"); ("time", PyNone)].

(** Section 100 lists A and B, section 101 lists B and C. *)
Definition listing (section_id : Z) : result (list string) :=
  if bool_decide (section_id = 100%Z) then Ok ["A"; "B"]
  else if bool_decide (section_id = 101%Z) then Ok ["B"; "C"]
  else Ok [].

(** The same, but the listing of section 101 cannot be fetched. *)
Definition listing_101_down (section_id : Z) : result (list string) :=
  if bool_decide (section_id = 101%Z) then Raise (SourceError "timeout")
  else listing section_id.

(** Every page is an article with a title, except D, which has none. *)
Definition pages (u : string) : result (option (gmap string pyval)) :=
  if bool_decide (u = "D") then Ok (Some (article u ""))
  else Ok (Some (article u ("new " +:+ u))).

Definition row_A : row := Row "A" (PyStr "old A") (PyStr "s") (PyStr "c") PyNone.

(** A already stored, PostgreSQL reachable. *)
Definition world_A : world := World [row_A] (λ _, true) [].

(** A already stored, PostgreSQL unreachable. *)
Definition world_down : world := World [row_A] (λ _, false) [].

(** A already stored; PostgreSQL drops out at instant 8 only. *)
Definition world_blip : world := World [row_A] (λ n, negb (Nat.eqb n 8)) [].

(** [world_blip] once discovery and the existence check have run. *)
Definition world_blip_checked : world :=
  (filter_new_urls ["C"; "A"; "B"] (get_all_article_urls listing world_blip).2).2.

End fixture.

(** ** More to observe and more newsrooms *)

Definition is_select (e : event) : bool :=
  match e with Select _ => true | _ => false end.

(** How many [SELECT] statements have been sent. *)
Definition selects (w : world) : nat :=
  length (filter (λ e, is_select e = true) (trace w)).

(** A call to PostgreSQL. *)
Definition is_db_call (e : event) : bool := is_select e || is_insert e.

(** The call made at instant [n]; the trace has the newest call first. *)
Definition call_at (w : world) (n : nat) : option event := reverse (trace w) !! n.

(** PostgreSQL was reachable at every instant, from [w] on, at which a
    [SELECT] or an [INSERT] of the trace of [w'] was sent. *)
Definition db_answered (w w' : world) : Prop :=
  ∀ n e, now w ≤ n → call_at w' n = Some e → is_db_call e = true →
         db_up w n = true.

(** The keys [scrape_and_save_news] reads from [news_data], in the order in
    which the arguments of [hook.run] are evaluated. *)
Definition fields : list string := ["url"; "title"; "summary"; "content"; "time"].

Module fixture_more.

(** A crawler that reports every page under its canonical url. *)
Definition pages_canonical (u : string) : result (option (gmap string pyval)) :=
  Ok (Some (fixture.article ("canonical/" +:+ u) ("new " +:+ u))).

(** A crawler whose articles lack their summary. *)
Definition pages_no_summary (u : string) : result (option (gmap string pyval)) :=
  Ok (Some (delete "summary" (fixture.article u ("new " +:+ u)))).

(** A crawler that reads the pages B and B2 as the same article, stored
    under B, with different titles. *)
Definition pages_alias (u : string) : result (option (gmap string pyval)) :=
  if bool_decide (u = "B2") then Ok (Some (fixture.article "B" "new B2"))
  else fixture.pages u.

(** A crawler that cannot read the page C. *)
Definition pages_C_unreadable (u : string) : result (option (gmap string pyval)) :=
  if bool_decide (u = "C") then Raise (SourceError "HTTP 500")
  else fixture.pages u.

(** A already stored; PostgreSQL is out of reach at instant 0 only. *)
Definition world_late : world := World [fixture.row_A] (λ n, negb (Nat.eqb n 0)) [].

(** B and C stored, PostgreSQL reachable. *)
Definition world_BC : world :=
  World [Row "B" (PyStr "old B") (PyStr "s") (PyStr "c") PyNone;
         Row "C" (PyStr "old C") (PyStr "s") (PyStr "c") PyNone]
        (λ _, true) [].

End fixture_more.

(** ** Properties *)

Ltac unfold_M :=
  unfold mbind, M_bind, mret, M_ret, raise in *.

(** *** Lists *)

Lemma filter_ext_elem_of {A} (P Q : A → Prop)
    `{!∀ x, Decision (P x), !∀ x, Decision (Q x)} (l : list A) :
  (∀ x, x ∈ l → P x ↔ Q x) → filter P l = filter Q l.
Proof.
  induction l as [|a l IH]; intros Hiff; [done|].
  rewrite !filter_cons, IH by (intros; apply Hiff; by right).
  assert (P a ↔ Q a) by (apply Hiff; by left).
  repeat case_decide; tauto.
Qed.

Lemma filter_eq_absent {A} `{EqDecision A} (x : A) (l : list A) :
  x ∉ l → filter (λ y, y = x) l = [].
Proof.
  induction l as [|z l IH]; intros Hx; [done|].
  apply not_elem_of_cons in Hx as [Hxz Hx].
  rewrite filter_cons_False by congruence. auto.
Qed.

Lemma filter_eq_length_NoDup {A} `{EqDecision A} (x : A) (l : list A) :
  NoDup l → x ∈ l → length (filter (λ y, y = x) l) = 1.
Proof.
  induction 1 as [|y l Hy Hl IH]; intros Hx.
  - by apply elem_of_nil in Hx.
  - rewrite filter_cons. destruct (decide (y = x)) as [->|Hne]; simpl.
    + by rewrite filter_eq_absent.
    + apply IH. apply elem_of_cons in Hx as [->|Hx]; done.
Qed.

Lemma filter_eq_length_le {A} `{EqDecision A} (x : A) (l : list A) :
  NoDup l → length (filter (λ y, y = x) l) ≤ 1.
Proof.
  intros Hnd. destruct (decide (x ∈ l)) as [Hx|Hx].
  - by rewrite filter_eq_length_NoDup.
  - rewrite filter_eq_absent by done. simpl. lia.
Qed.

Lemma filter_none {A} (P : A → Prop) `{!∀ x, Decision (P x)} (l : list A) :
  (∀ x, x ∈ l → ¬ P x) → filter P l = [].
Proof.
  induction l as [|a l IH]; intros Hno; [done|].
  rewrite filter_cons_False by (apply Hno; by left).
  apply IH. intros x Hx. apply Hno. by right.
Qed.

(** *** Records and keys *)

Lemma keys_app (t1 t2 : list row) : keys (t1 ++ t2) = keys t1 ++ keys t2.
Proof. unfold keys. apply fmap_app. Qed.

Lemma records_of_app (u : string) (t1 t2 : list row) :
  records_of u (t1 ++ t2) = records_of u t1 ++ records_of u t2.
Proof. unfold records_of. apply filter_app. Qed.

Lemma records_of_absent (u : string) (t : list row) :
  u ∉ keys t → records_of u t = [].
Proof.
  unfold records_of, keys. induction t as [|r t IH]; intros Hu; [done|].
  rewrite fmap_cons, not_elem_of_cons in Hu. destruct Hu as [Hne Hu].
  rewrite filter_cons_False by congruence. auto.
Qed.

Lemma records_of_present (u : string) (t : list row) :
  u ∈ keys t → 1 ≤ length (records_of u t).
Proof.
  unfold records_of, keys. induction t as [|r t IH]; intros Hu.
  - by apply elem_of_nil in Hu.
  - rewrite filter_cons. destruct (decide (url r = u)); simpl; [lia|].
    rewrite fmap_cons, elem_of_cons in Hu. destruct Hu as [->|Hu]; [done|auto].
Qed.

Lemma records_of_unique (u : string) (t : list row) :
  NoDup (keys t) → length (records_of u t) ≤ 1.
Proof.
  unfold keys. induction t as [|r t IH]; intros Hnd; [simpl; lia|].
  rewrite fmap_cons, NoDup_cons in Hnd. destruct Hnd as [Hr Hnd].
  unfold records_of in *. rewrite filter_cons.
  destruct (decide (url r = u)) as [<-|Hne]; [|auto].
  fold (records_of (url r) t). rewrite (records_of_absent _ _ Hr). simpl; lia.
Qed.

(** *** Events *)

Lemma now_tick (e : event) (w : world) : now (tick e w) = S (now w).
Proof. done. Qed.

Lemma fetches_tick (u : string) (e : event) (w : world) :
  fetches u (tick e w) = (if is_fetch_of u e then 1 else 0) + fetches u w.
Proof.
  unfold fetches, tick; simpl. rewrite filter_cons.
  destruct (is_fetch_of u e); by case_decide.
Qed.

Lemma inserts_tick (e : event) (w : world) :
  inserts (tick e w) = (if is_insert e then 1 else 0) + inserts w.
Proof.
  unfold inserts, tick; simpl. rewrite filter_cons.
  destruct (is_insert e); by case_decide.
Qed.

Lemma is_fetch_of_Fetch (u v : string) :
  is_fetch_of u (Fetch v) = bool_decide (v = u).
Proof.
  unfold is_fetch_of. apply bool_decide_ext. split; congruence.
Qed.

Lemma call_at_newest (w : world) (e : event) (t : list event) :
  trace w = e :: t → call_at w (length t) = Some e.
Proof.
  intros Ht. unfold call_at. rewrite Ht, reverse_cons.
  rewrite lookup_app_r by (rewrite length_reverse; lia).
  by rewrite length_reverse, Nat.sub_diag.
Qed.

Lemma call_at_later (w w' : world) (es : list event) (n : nat) (e : event) :
  trace w' = es ++ trace w → call_at w n = Some e → call_at w' n = Some e.
Proof.
  intros Ht Hn. unfold call_at in *. rewrite Ht, reverse_app.
  by apply lookup_app_l_Some.
Qed.

(** *** The existence check *)

Section filter_new_urls_facts.

Implicit Types (urls : list string) (w : world).

Lemma filter_new_urls_nil w : filter_new_urls [] w = (Ok [], w).
Proof. done. Qed.

Lemma existing_urls_spec urls (t : list row) (u : string) :
  u ∈ urls →
  u ∈ (list_to_set (filter (λ v, v ∈ urls) (keys t)) : gset string) ↔ u ∈ keys t.
Proof.
  intros Hu. rewrite elem_of_list_to_set, list_elem_of_filter. tauto.
Qed.

Lemma filter_new_urls_up urls w :
  urls ≠ [] → db_up w (now w) = true →
  filter_new_urls urls w =
    (Ok (filter (λ u, u ∉ keys (naver_news w)) urls), tick (Select urls) w).
Proof.
  intros Hne Hup. unfold filter_new_urls, hook_get_records. unfold_M.
  rewrite bool_decide_eq_false_2 by done. rewrite Hup. do 2 f_equal.
  apply filter_ext_elem_of. intros u Hu.
  by rewrite existing_urls_spec.
Qed.

Lemma filter_new_urls_down urls w :
  urls ≠ [] → db_up w (now w) = false →
  filter_new_urls urls w = (Raise OperationalError, tick (Select urls) w).
Proof.
  intros Hne Hdown. unfold filter_new_urls, hook_get_records. unfold_M.
  rewrite bool_decide_eq_false_2 by done. by rewrite Hdown.
Qed.

(** Whatever it returns, the check leaves the table alone, fetches nothing
    and inserts nothing. *)
Lemma filter_new_urls_frame urls w :
  let w' := (filter_new_urls urls w).2 in
  naver_news w' = naver_news w ∧ db_up w' = db_up w ∧
  inserts w' = inserts w ∧ (∀ u, fetches u w' = fetches u w) ∧
  now w ≤ now w' ≤ S (now w).
Proof.
  destruct urls as [|u0 urls']; [simpl; repeat split; lia|].
  assert (Hframe : let w' := tick (Select (u0 :: urls')) w in
    naver_news w' = naver_news w ∧ db_up w' = db_up w ∧
    inserts w' = inserts w ∧ (∀ u, fetches u w' = fetches u w) ∧
    now w ≤ now w' ≤ S (now w)).
  { cbv zeta. rewrite inserts_tick, now_tick.
    repeat split; try done; lia. }
  destruct (db_up w (now w)) eqn:Hup.
  - rewrite filter_new_urls_up by done. exact Hframe.
  - rewrite filter_new_urls_down by done. exact Hframe.
Qed.

Lemma filter_new_urls_sublist urls w (new_urls : list string) :
  (filter_new_urls urls w).1 = Ok new_urls → new_urls `sublist_of` urls.
Proof.
  destruct urls as [|u0 urls'].
  - rewrite filter_new_urls_nil. by intros [= <-].
  - destruct (db_up w (now w)) eqn:Hup.
    + rewrite filter_new_urls_up by done. intros [= <-]. apply sublist_filter.
    + by rewrite filter_new_urls_down.
Qed.


End filter_new_urls_facts.

(** *** The insert *)

Lemma hook_run_stored (u : string) (t s c n : pyval) (w : world) :
  u ∈ keys (naver_news w) →
  naver_news (hook_run (PyStr u) t s c n w).2 = naver_news w.
Proof.
  intros Hu. unfold hook_run. destruct (db_up w (now w)); [|done].
  by rewrite bool_decide_eq_true_2.
Qed.

Lemma hook_run_table (p_url t s c n : pyval) (w : world) :
  naver_news (hook_run p_url t s c n w).2 =
    match p_url with
    | PyStr u =>
        if db_up w (now w) && negb (bool_decide (u ∈ keys (naver_news w)))
        then naver_news w ++ [Row u t s c n] else naver_news w
    | PyNone => naver_news w
    end.
Proof.
  unfold hook_run. destruct (db_up w (now w)), p_url; simpl; try done.
  by case_bool_decide.
Qed.

Lemma hook_run_unique (p_url t s c n : pyval) (w : world) :
  NoDup (keys (naver_news w)) →
  NoDup (keys (naver_news (hook_run p_url t s c n w).2)).
Proof.
  intros Hnd. rewrite hook_run_table. destruct p_url as [|u]; [done|].
  destruct (db_up w (now w)); simpl; [|done].
  case_bool_decide; simpl; [done|].
  rewrite keys_app. apply NoDup_app. repeat split; [done| |apply NoDup_singleton].
  intros v Hv Hv'. apply list_elem_of_singleton in Hv'. by subst.
Qed.

(** *** One ingestion unit *)

Section scrape_and_save_news_facts.

Variable get_news_content : string → result (option (gmap string pyval)).

Implicit Types (u v : string) (w : world).

Local Abbreviation scrape := (scrape_and_save_news get_news_content).
Local Abbreviation row_of := (row_of get_news_content).

Ltac scrape_cases u w :=
  unfold scrape_and_save_news, call_get_news_content, row_of,
    dict_item, hook_run;
  unfold_M; unfold now;
  let d := fresh "d" in
  destruct (get_news_content u) as [[d|]|?]; simpl; try done;
  try (destruct (_ || _); simpl; try done;
  destruct (d !! "url") as [[|?]|]; simpl; try done;
  destruct (d !! "title"); simpl; try done;
  destruct (d !! "summary"); simpl; try done;
  destruct (d !! "content"); simpl; try done;
  destruct (d !! "time"); simpl; try done;
  destruct (db_up w (S (length (trace w)))); simpl; try done;
  try (case_bool_decide; simpl; try done)).

Lemma scrape_skip u w (news_data : option (gmap string pyval)) :
  get_news_content u = Ok news_data → no_article_or_no_title news_data = true →
  scrape u w = (Ok tt, tick (Fetch u) w).
Proof.
  intros Hnd Hno. unfold scrape_and_save_news, call_get_news_content. unfold_M.
  by rewrite Hnd, Hno.
Qed.

Lemma scrape_row u w (r : row) :
  row_of u = Some r →
  scrape u w =
    hook_run (PyStr (url r)) (title r) (summary r) (content r) (news_time r)
      (tick (Fetch u) w).
Proof.
  unfold scrape_and_save_news, call_get_news_content, row_of, dict_item.
  unfold_M. destruct (get_news_content u) as [[d|]|?]; simpl; try done.
  destruct (_ || _); simpl; try done.
  destruct (d !! "url") as [[|?]|]; simpl; try done;
  destruct (d !! "title"); simpl; try done;
  destruct (d !! "summary"); simpl; try done;
  destruct (d !! "content"); simpl; try done;
  destruct (d !! "time"); simpl; try done.
  by intros [= <-].
Qed.

Lemma scrape_table u w :
  naver_news (scrape u w).2 =
    match row_of u with
    | Some r =>
        if db_up w (S (now w)) && negb (bool_decide (url r ∈ keys (naver_news w)))
        then naver_news w ++ [r] else naver_news w
    | None => naver_news w
    end.
Proof. scrape_cases u w. Qed.

Lemma scrape_db_up u w : db_up (scrape u w).2 = db_up w.
Proof. scrape_cases u w. Qed.

Lemma scrape_now u w : S (now w) ≤ now (scrape u w).2 ≤ S (S (now w)).
Proof. scrape_cases u w; lia. Qed.

Lemma scrape_fetches u v w :
  fetches v (scrape u w).2 = (if bool_decide (u = v) then 1 else 0) + fetches v w.
Proof.
  assert (Hf : fetches v (tick (Fetch u) w)
               = (if bool_decide (u = v) then 1 else 0) + fetches v w).
  { by rewrite fetches_tick, is_fetch_of_Fetch. }
  assert (Hi : ∀ a b c d e, fetches v (tick (Insert a b c d e) (tick (Fetch u) w))
               = fetches v (tick (Fetch u) w)) by done.
  unfold scrape_and_save_news, call_get_news_content, dict_item, hook_run.
  unfold_M. rewrite <- Hf.
  destruct (get_news_content u) as [[d|]|?]; simpl; try done.
  destruct (_ || _); simpl; try done.
  destruct (d !! "url") as [[|?]|]; simpl; try done;
  destruct (d !! "title"); simpl; try done;
  destruct (d !! "summary"); simpl; try done;
  destruct (d !! "content"); simpl; try done;
  destruct (d !! "time"); simpl; try done;
  destruct (db_up w _); simpl; try done.
  destruct (bool_decide (_ ∈ _)); exact (Hi _ _ _ _ _).
Qed.

Lemma scrape_extends u w : ∃ es, trace (scrape u w).2 = es ++ trace w.
Proof.
  unfold scrape_and_save_news, call_get_news_content, dict_item, hook_run.
  unfold_M.
  destruct (get_news_content u) as [[d|]|?]; simpl; try (by exists [Fetch u]).
  destruct (_ || _); simpl; try (by exists [Fetch u]).
  destruct (d !! "url") as [[|?]|]; simpl; try (by exists [Fetch u]);
  destruct (d !! "title"); simpl; try (by exists [Fetch u]);
  destruct (d !! "summary"); simpl; try (by exists [Fetch u]);
  destruct (d !! "content"); simpl; try (by exists [Fetch u]);
  destruct (d !! "time"); simpl; try (by exists [Fetch u]);
  destruct (db_up w _); simpl; try (by eexists [_; _]).
  destruct (bool_decide (_ ∈ _)); by eexists [_; _].
Qed.

(** A unit that has a row sends its INSERT one instant after its fetch. *)
Lemma scrape_row_call u w (r : row) :
  row_of u = Some r →
  call_at (scrape u w).2 (S (now w))
  = Some (Insert (PyStr (url r)) (title r) (summary r) (content r) (news_time r)).
Proof.
  intros Hr. apply (call_at_newest _ _ (Fetch u :: trace w)).
  rewrite (scrape_row _ _ _ Hr). unfold hook_run.
  destruct (db_up _ _); [|done]. by destruct (bool_decide (_ ∈ _)).
Qed.

(** What a unit returns: [None] or an exception, nothing else. *)
Lemma scrape_result u w :
  match get_news_content u with
  | Raise e => (scrape u w).1 = Raise e
  | Ok news_data =>
      if no_article_or_no_title news_data then (scrape u w).1 = Ok tt
      else
        match row_of u with
        | Some _ =>
            (scrape u w).1
            = if db_up w (S (now w)) then Ok tt else Raise OperationalError
        | None => ∃ e, (scrape u w).1 = Raise e
        end
  end.
Proof.
  unfold scrape_and_save_news, call_get_news_content, row_of,
    dict_item, hook_run.
  unfold_M. unfold now.
  destruct (get_news_content u) as [[d|]|?]; simpl; try done.
  destruct (_ || _); simpl; try done.
  destruct (d !! "url") as [[|?]|]; simpl; eauto;
  destruct (d !! "title"); simpl; eauto;
  destruct (d !! "summary"); simpl; eauto;
  destruct (d !! "content"); simpl; eauto;
  destruct (d !! "time"); simpl; eauto;
  destruct (db_up w (S (length (trace w)))); simpl; eauto.
  by destruct (bool_decide (_ ∈ _)).
Qed.

End scrape_and_save_news_facts.

(** *** The fan-out *)

Section expand_facts.

Variable get_news_content : string → result (option (gmap string pyval)).

Implicit Types (u v : string) (urls : list string) (w : world).

Local Abbreviation scrape := (scrape_and_save_news get_news_content).
Local Abbreviation row_of := (row_of get_news_content).

Lemma expand_cons (task : string → M unit) u urls w :
  expand task (u :: urls) w =
    ((task u w).1 :: (expand task urls (task u w).2).1,
     (expand task urls (task u w).2).2).
Proof.
  cbn [expand]. destruct (task u w) as [r w1]. cbn [fst snd].
  by destruct (expand task urls w1).
Qed.

Lemma expand_length (task : string → M unit) urls w :
  length (expand task urls w).1 = length urls.
Proof.
  revert w. induction urls as [|u urls IH]; intros w; [done|].
  rewrite expand_cons. simpl. by rewrite IH.
Qed.

(** An existing record is out of reach of any unit. *)
Lemma scrape_records_of u v w :
  v ∈ keys (naver_news w) →
  records_of v (naver_news (scrape u w).2) = records_of v (naver_news w).
Proof.
  intros Hv. rewrite scrape_table. destruct (row_of u) as [r|]; [|done].
  destruct (db_up w _); simpl; [|done]. case_bool_decide; simpl; [done|].
  rewrite records_of_app. unfold records_of at 2.
  rewrite filter_cons_False, filter_nil, app_nil_r; [done|].
  intros Heq. by subst.
Qed.

Lemma scrape_prefix u w : naver_news w `prefix_of` naver_news (scrape u w).2.
Proof.
  rewrite scrape_table. destruct (row_of u) as [r|]; [|done].
  destruct (_ && _); [|done]. by apply prefix_app_r.
Qed.

Lemma scrape_unique u w :
  NoDup (keys (naver_news w)) → NoDup (keys (naver_news (scrape u w).2)).
Proof.
  intros Hnd. destruct (row_of u) as [r|] eqn:Hr.
  - rewrite (scrape_row _ _ _ _ Hr). by apply hook_run_unique.
  - by rewrite scrape_table, Hr.
Qed.


Lemma expand_now urls w : now w ≤ now (expand scrape urls w).2.
Proof.
  revert w. induction urls as [|u urls IH]; intros w; [done|].
  rewrite expand_cons. simpl. specialize (IH (scrape u w).2).
  pose proof (scrape_now get_news_content u w). lia.
Qed.

Lemma expand_prefix urls w :
  naver_news w `prefix_of` naver_news (expand scrape urls w).2.
Proof.
  revert w. induction urls as [|u urls IH]; intros w; [done|].
  rewrite expand_cons. simpl. etrans; [apply scrape_prefix|apply IH].
Qed.

Lemma expand_unique urls w :
  NoDup (keys (naver_news w)) →
  NoDup (keys (naver_news (expand scrape urls w).2)).
Proof.
  revert w. induction urls as [|u urls IH]; intros w Hnd; [done|].
  rewrite expand_cons. simpl. by apply IH, scrape_unique.
Qed.

Lemma prefix_keys (t t' : list row) v :
  t `prefix_of` t' → v ∈ keys t → v ∈ keys t'.
Proof.
  intros [k ->] Hv. rewrite keys_app. apply elem_of_app. by left.
Qed.

Lemma expand_records_of urls v w :
  v ∈ keys (naver_news w) →
  records_of v (naver_news (expand scrape urls w).2) = records_of v (naver_news w).
Proof.
  revert w. induction urls as [|u urls IH]; intros w Hv; [done|].
  rewrite expand_cons. simpl. rewrite IH.
  - by apply scrape_records_of.
  - eapply prefix_keys; [apply scrape_prefix|done].
Qed.

Lemma expand_fetches urls v w :
  fetches v (expand scrape urls w).2
  = length (filter (λ u, u = v) urls) + fetches v w.
Proof.
  revert w. induction urls as [|u urls IH]; intros w; [done|].
  rewrite expand_cons. simpl. rewrite IH, scrape_fetches, filter_cons.
  case_bool_decide; case_decide; simpl; try done; lia.
Qed.


Lemma expand_extends urls w : ∃ es, trace (expand scrape urls w).2 = es ++ trace w.
Proof.
  revert w. induction urls as [|u urls IH]; intros w; [by exists []|].
  rewrite expand_cons. cbn [snd].
  destruct (IH (scrape u w).2) as (es & ->).
  destruct (scrape_extends get_news_content u w) as (es' & ->).
  exists (es ++ es'). by rewrite app_assoc.
Qed.

(** If PostgreSQL answered every call of the units, every row a unit sent
    ends up stored, by this unit or by an earlier insert. *)
Lemma expand_stores urls w :
  db_answered w (expand scrape urls w).2 →
  ∀ u r, u ∈ urls → row_of u = Some r →
    url r ∈ keys (naver_news (expand scrape urls w).2).
Proof.
  revert w. induction urls as [|u urls IH]; intros w Hup u' r Hu' Hr.
  - by apply elem_of_nil in Hu'.
  - rewrite expand_cons in Hup |- *. cbn [snd] in *.
    pose proof (scrape_now get_news_content u w) as Hnow.
    destruct (expand_extends urls (scrape u w).2) as (es & Hes).
    apply elem_of_cons in Hu' as [->|Hu'].
    + eapply prefix_keys; [apply expand_prefix|].
      assert (Hins : db_up w (S (now w)) = true).
      { apply (Hup (S (now w)) (Insert (PyStr (url r)) (title r) (summary r)
                                    (content r) (news_time r))); [lia| |done].
        eapply call_at_later; [done|]. by apply scrape_row_call. }
      rewrite scrape_table, Hr, Hins. simpl.
      case_bool_decide; simpl; [done|].
      rewrite keys_app. apply elem_of_app. right. by left.
    + apply IH with (u := u'); [|done|done]. intros n e Hn Hcall Hdb.
      rewrite scrape_db_up. apply (Hup n e); [lia|done..].
Qed.

(** The instance of the [i]-th url runs in the world its predecessors
    left. *)
Lemma expand_lookup (task : string → M unit) urls w (i : nat) u :
  urls !! i = Some u →
  (expand task urls w).1 !! i
  = Some (task u (expand task (take i urls) w).2).1.
Proof.
  revert i w. induction urls as [|u0 urls IH]; intros i w Hi; [done|].
  rewrite expand_cons. destruct i as [|i].
  - by injection Hi as ->.
  - cbn [fst lookup list_lookup take]. rewrite expand_cons. cbn [snd].
    by apply IH.
Qed.



Lemma expand_results (task : string → M unit) urls w :
  Forall2 (λ u res, ∃ w0, res = (task u w0).1) urls (expand task urls w).1.
Proof.
  revert w. induction urls as [|u urls IH]; intros w; [constructor|].
  rewrite expand_cons. cbn [fst]. constructor; [by exists w|apply IH].
Qed.

End expand_facts.

(** *** Discovery *)

Section get_all_article_urls_facts.

Variable get_urls_from_section : Z → result (list string).

Implicit Types (section_ids : list Z) (all_urls : list string) (w : world).

Local Abbreviation for_section_id := (for_section_id get_urls_from_section).
Local Abbreviation get_all := (get_all_article_urls get_urls_from_section).

Lemma for_section_id_cons (section_id : Z) section_ids all_urls w :
  for_section_id (section_id :: section_ids) all_urls w =
    match get_urls_from_section section_id with
    | Ok urls =>
        for_section_id section_ids (all_urls ++ urls) (tick (Discover section_id) w)
    | Raise e => (Raise e, tick (Discover section_id) w)
    end.
Proof.
  cbn [for_section_id]. unfold call_get_urls_from_section. unfold_M.
  by destruct (get_urls_from_section section_id).
Qed.

(** Discovery only reads the source. *)
Lemma for_section_id_frame section_ids all_urls w :
  let w' := (for_section_id section_ids all_urls w).2 in
  naver_news w' = naver_news w ∧ db_up w' = db_up w ∧
  inserts w' = inserts w ∧ (∀ u, fetches u w' = fetches u w) ∧
  now w ≤ now w'.
Proof.
  revert all_urls w.
  induction section_ids as [|sid section_ids IH]; intros all_urls w.
  - simpl. repeat split; done.
  - rewrite for_section_id_cons.
    destruct (get_urls_from_section sid) as [urls|e].
    + specialize (IH (all_urls ++ urls) (tick (Discover sid) w)).
      cbv zeta in *. destruct IH as (-> & -> & -> & Hf & Hn).
      rewrite now_tick in Hn. repeat split; try done; lia.
    + cbn [snd]. rewrite now_tick. repeat split; try done; lia.
Qed.


Lemma for_section_id_ok section_ids all_urls w (res : list string) :
  (for_section_id section_ids all_urls w).1 = Ok res →
  (∀ sid, sid ∈ section_ids → is_ok (get_urls_from_section sid) = true) ∧
  ∀ u, u ∈ res ↔
    u ∈ all_urls ∨
    ∃ sid urls, sid ∈ section_ids ∧ get_urls_from_section sid = Ok urls ∧ u ∈ urls.
Proof.
  revert all_urls w.
  induction section_ids as [|sid section_ids IH]; intros all_urls w Hres.
  - simpl in Hres. injection Hres as <-. split.
    + intros sid Hsid. by apply elem_of_nil in Hsid.
    + intros u. split; [by left|]. intros [Hu|(sid & urls & Hsid & _)]; [done|].
      by apply elem_of_nil in Hsid.
  - rewrite for_section_id_cons in Hres.
    destruct (get_urls_from_section sid) as [urls|e] eqn:Hsid; [|done].
    apply IH in Hres as [Hok Hmem]. split.
    + intros sid' [->|Hin]%elem_of_cons; [by rewrite Hsid|auto].
    + intros u. rewrite Hmem, elem_of_app. split.
      * intros [[Hu|Hu]|(sid' & urls' & Hin & Hget & Hu)].
        -- by left.
        -- right. exists sid, urls. split; [by left|done].
        -- right. exists sid', urls'. split; [by right|done].
      * intros [Hu|(sid' & urls' & [->|Hin]%elem_of_cons & Hget & Hu)].
        -- by left; left.
        -- left; right. congruence.
        -- right. by exists sid', urls'.
Qed.

Lemma for_section_id_raise section_ids all_urls w (sid : Z) (e : exn) :
  sid ∈ section_ids → get_urls_from_section sid = Raise e →
  ∃ sid' e', sid' ∈ section_ids ∧ get_urls_from_section sid' = Raise e' ∧
    (for_section_id section_ids all_urls w).1 = Raise e'.
Proof.
  revert all_urls w.
  induction section_ids as [|sid0 section_ids IH]; intros all_urls w Hin He.
  - by apply elem_of_nil in Hin.
  - rewrite for_section_id_cons.
    destruct (get_urls_from_section sid0) as [urls|e0] eqn:Hsid0.
    + apply elem_of_cons in Hin as [->|Hin]; [congruence|].
      destruct (IH (all_urls ++ urls) (tick (Discover sid0) w) Hin He)
        as (sid' & e' & Hin' & He' & Hres).
      exists sid', e'. split; [by right|done].
    + exists sid0, e0. split; [by left|done].
Qed.

(** The first section that fails decides. *)
Lemma for_section_id_first (before after : list Z) (sid : Z) (e : exn) all_urls w :
  (∀ s, s ∈ before → is_ok (get_urls_from_section s) = true) →
  get_urls_from_section sid = Raise e →
  (for_section_id (before ++ sid :: after) all_urls w).1 = Raise e.
Proof.
  revert all_urls w. induction before as [|s before IH]; intros all_urls w Hok He.
  - simpl app. by rewrite for_section_id_cons, He.
  - simpl app. rewrite for_section_id_cons.
    assert (Hs : is_ok (get_urls_from_section s) = true) by (apply Hok; by left).
    destruct (get_urls_from_section s); [|done].
    apply IH; [|done]. intros s' Hs'. apply Hok. by right.
Qed.

Lemma get_all_unfold w :
  get_all w =
    match for_section_id (range 100 106) [] w with
    | (Ok all_urls, w') => (Ok (elements (list_to_set all_urls : gset string)), w')
    | (Raise e, w') => (Raise e, w')
    end.
Proof. done. Qed.

Lemma get_all_frame w :
  let w' := (get_all w).2 in
  naver_news w' = naver_news w ∧ db_up w' = db_up w ∧
  inserts w' = inserts w ∧ (∀ u, fetches u w' = fetches u w) ∧
  now w ≤ now w'.
Proof.
  pose proof (for_section_id_frame (range 100 106) [] w) as Hframe.
  rewrite get_all_unfold.
  by destruct (for_section_id (range 100 106) [] w) as [[all_urls|e] w'].
Qed.


Lemma get_all_ok w (unique_urls : list string) :
  (get_all w).1 = Ok unique_urls →
  NoDup unique_urls ∧
  (∀ sid, sid ∈ range 100 106 → is_ok (get_urls_from_section sid) = true) ∧
  ∀ u, u ∈ unique_urls ↔
    ∃ sid urls, sid ∈ range 100 106 ∧ get_urls_from_section sid = Ok urls ∧ u ∈ urls.
Proof.
  rewrite get_all_unfold.
  destruct (for_section_id (range 100 106) [] w) as [[all_urls|e] w'] eqn:Hloop;
    [|done].
  intros [= <-]. split; [apply NoDup_elements|].
  pose proof (for_section_id_ok (range 100 106) [] w all_urls) as [Hok Hmem].
  { by rewrite Hloop. }
  split; [done|]. intros u. rewrite elem_of_elements, elem_of_list_to_set, Hmem.
  split; [|by right]. intros [Hu|Hu]; [by apply elem_of_nil in Hu|done].
Qed.

Lemma get_all_raise w (sid : Z) (e : exn) :
  sid ∈ range 100 106 → get_urls_from_section sid = Raise e →
  ∃ sid' e', sid' ∈ range 100 106 ∧ get_urls_from_section sid' = Raise e' ∧
    (get_all w).1 = Raise e'.
Proof.
  intros Hin He.
  destruct (for_section_id_raise (range 100 106) [] w sid e Hin He)
    as (sid' & e' & Hin' & He' & Hres).
  exists sid', e'. repeat split; [done..|].
  rewrite get_all_unfold.
  destruct (for_section_id (range 100 106) [] w) as [[all_urls|e0] w'];
    simpl in *; congruence.
Qed.

End get_all_article_urls_facts.

(** *** The DAG *)

Section dag_facts.

Variable get_urls_from_section : Z → result (list string).
Variable get_news_content : string → result (option (gmap string pyval)).

Implicit Types (u v : string) (urls all_urls : list string) (w : world).

Local Abbreviation get_all := (get_all_article_urls get_urls_from_section).
Local Abbreviation scrape := (scrape_and_save_news get_news_content).
Local Abbreviation row_of := (row_of get_news_content).
Local Abbreviation downstream := (downstream get_news_content).
Local Abbreviation dag :=
  (naver_news_scraping_dag_with_db get_urls_from_section get_news_content).

Lemma push_for_expand_Ok (r : result (list string)) (urls : list string) :
  push_for_expand r = Ok urls ↔ r = Ok urls ∧ length urls ≤ max_map_length.
Proof.
  unfold push_for_expand. destruct r as [l|e]; [|split; [done|by intros [? ?]]].
  destruct (length l <=? max_map_length) eqn:Hle.
  - apply Nat.leb_le in Hle. split; [by intros [= <-]|]. by intros [[= <-] _].
  - apply Nat.leb_gt in Hle. split; [done|]. intros [[= <-] ?]. lia.
Qed.

Lemma downstream_unfold all_urls w :
  downstream all_urls w =
    match push_for_expand (filter_new_urls all_urls w).1 with
    | Raise e =>
        (DagRun (Ok all_urls) (Some (Raise e)) [], (filter_new_urls all_urls w).2)
    | Ok new_urls =>
        (DagRun (Ok all_urls) (Some (Ok new_urls))
           (expand scrape new_urls (filter_new_urls all_urls w).2).1,
         (expand scrape new_urls (filter_new_urls all_urls w).2).2)
    end.
Proof.
  unfold downstream.
  destruct (filter_new_urls all_urls w) as [returned w1]. cbn [fst snd].
  destruct (push_for_expand returned) as [new_urls|e]; [|done].
  by destruct (expand scrape new_urls w1).
Qed.

Lemma dag_unfold w :
  dag w =
    match (get_all w).1 with
    | Raise e => (DagRun (Raise e) None [], (get_all w).2)
    | Ok all_urls => downstream all_urls (get_all w).2
    end.
Proof.
  unfold naver_news_scraping_dag_with_db.
  by destruct (get_all w) as [[all_urls|e] w1].
Qed.


Lemma downstream_unique all_urls w :
  NoDup (keys (naver_news w)) →
  NoDup (keys (naver_news (downstream all_urls w).2)).
Proof.
  intros Hnd. rewrite downstream_unfold.
  destruct (filter_new_urls_frame all_urls w) as (Ht & _).
  destruct (push_for_expand _); cbn [snd]; [|by rewrite Ht].
  apply expand_unique. by rewrite Ht.
Qed.

Lemma dag_unique w :
  NoDup (keys (naver_news w)) → NoDup (keys (naver_news (dag w).2)).
Proof.
  intros Hnd. rewrite dag_unfold.
  destruct (get_all_frame get_urls_from_section w) as (Ht & _).
  destruct (get_all w).1; cbn [snd]; [|by rewrite Ht].
  apply downstream_unique. by rewrite Ht.
Qed.


Lemma downstream_extends all_urls w :
  ∃ es, trace (downstream all_urls w).2 = es ++ trace (filter_new_urls all_urls w).2.
Proof.
  rewrite downstream_unfold.
  destruct (push_for_expand _) as [new_urls|e]; cbn [snd]; [|by exists []].
  apply expand_extends.
Qed.

(** If PostgreSQL answered every call of the run and the new urls are not
    too many for [expand], the row of every candidate that was not stored
    ends up stored. *)
Lemma downstream_stores all_urls w :
  db_answered w (downstream all_urls w).2 →
  length (filter (λ u, u ∉ keys (naver_news w)) all_urls) ≤ max_map_length →
  ∀ u r, u ∈ all_urls → u ∉ keys (naver_news w) → row_of u = Some r →
    url r ∈ keys (naver_news (downstream all_urls w).2).
Proof.
  intros Hup Hlen u r Hu Hnew Hr.
  assert (Hne : all_urls ≠ []) by (intros ->; by apply elem_of_nil in Hu).
  assert (Hup0 : db_up w (now w) = true).
  { destruct (db_up w (now w)) eqn:Hdown; [done|].
    destruct (downstream_extends all_urls w) as (es & Hes).
    rewrite filter_new_urls_down in Hes by done.
    rewrite <- Hdown. apply (Hup (now w) (Select all_urls)); [done| |done].
    eapply call_at_later; [done|]. by apply call_at_newest. }
  revert Hup. rewrite downstream_unfold, filter_new_urls_up by done.
  cbn [fst snd].
  assert (Hpush : push_for_expand
    (Ok (filter (λ u, u ∉ keys (naver_news w)) all_urls))
    = Ok (filter (λ u, u ∉ keys (naver_news w)) all_urls))
    by by apply push_for_expand_Ok.
  rewrite Hpush. cbn [snd]. intros Hup.
  apply expand_stores with (u := u); [|by apply list_elem_of_filter|done].
  intros n e Hn Hcall Hdb. rewrite now_tick in Hn. apply (Hup n e); [lia|done..].
Qed.

Lemma downstream_fetches all_urls v w :
  NoDup all_urls → fetches v (downstream all_urls w).2 ≤ S (fetches v w).
Proof.
  intros Hnd. rewrite downstream_unfold.
  destruct (filter_new_urls_frame all_urls w) as (_ & _ & _ & Hf & _).
  destruct (push_for_expand _) as [new_urls|e] eqn:Hpush;
    cbn [snd]; [|rewrite Hf; lia].
  apply push_for_expand_Ok in Hpush as [Hres _].
  rewrite expand_fetches, Hf.
  assert (Hnew : NoDup new_urls).
  { eapply sublist_NoDup; [done|by eapply filter_new_urls_sublist]. }
  pose proof (filter_eq_length_le v new_urls Hnew). lia.
Qed.

Lemma state_fan_out all_urls (new_urls : list string) (rs : list (result unit)) :
  state (DagRun (Ok all_urls) (Some (Ok new_urls)) rs) = success ↔
  ∀ res, res ∈ rs → res = Ok tt.
Proof.
  unfold state. cbn [ti_get_all_article_urls ti_filter_new_urls
    ti_scrape_and_save_news is_ok from_option andb].
  induction rs as [|[[]|e] rs IH]; cbn [forallb is_ok andb].
  - split; [|done]. intros _ res Hin. by apply elem_of_nil in Hin.
  - rewrite IH. split.
    + intros Hall res [->|Hin]%elem_of_cons; auto.
    + intros Hall res Hin. apply Hall. by right.
  - split; [done|]. intros Hall. specialize (Hall (Raise e)).
    discriminate Hall. by left.
Qed.

(** A run that reached the fan-out. *)
Lemma downstream_reached all_urls (new_urls : list string) w :
  ti_filter_new_urls (downstream all_urls w).1 = Some (Ok new_urls) →
  (filter_new_urls all_urls w).1 = Ok new_urls ∧
  length new_urls ≤ max_map_length ∧
  downstream all_urls w
  = (DagRun (Ok all_urls) (Some (Ok new_urls))
       (expand scrape new_urls (filter_new_urls all_urls w).2).1,
     (expand scrape new_urls (filter_new_urls all_urls w).2).2).
Proof.
  rewrite downstream_unfold.
  destruct (push_for_expand _) as [new|e] eqn:Hpush; [|done].
  cbn [fst ti_filter_new_urls]. intros [= ->].
  by apply push_for_expand_Ok in Hpush as [? ?].
Qed.



End dag_facts.


(** ** The claims *)

Section claims.

Variable get_urls_from_section : Z → result (list string).
Variable get_news_content : string → result (option (gmap string pyval)).

Implicit Types (u v : string) (urls all_urls : list string) (w : world).

Local Abbreviation get_all := (get_all_article_urls get_urls_from_section).
Local Abbreviation scrape := (scrape_and_save_news get_news_content).
Local Abbreviation row_of := (row_of get_news_content).
Local Abbreviation downstream := (downstream get_news_content).
Local Abbreviation dag :=
  (naver_news_scraping_dag_with_db get_urls_from_section get_news_content).

(** C1: at most one record per url. On a table whose urls are unique (the
    unique index that [ON CONFLICT (url)] relies on), the insert for a url
    that is already stored leaves exactly one record for it, whatever the
    other columns sent; so does the ingestion unit run on that url. After any
    sequence of inserts, after any sequence of ingestion units, and after a
    whole DAG run, no url has more than one record. *)
Theorem at_most_one_record_per_url w urls u (t s c n : pyval) (rows : list row) :
  NoDup (keys (naver_news w)) →
  (u ∈ keys (naver_news w) →
     length (records_of u (naver_news (hook_run (PyStr u) t s c n w).2)) = 1 ∧
     length (records_of u (naver_news (scrape u w).2)) = 1) ∧
  (∀ v, length (records_of v (naver_news
     (foldl (λ w0 r, (hook_run (PyStr (url r)) (title r) (summary r) (content r)
                        (news_time r) w0).2) w rows))) ≤ 1) ∧
  (∀ v, length (records_of v (naver_news (expand scrape urls w).2)) ≤ 1) ∧
  (∀ v, length (records_of v (naver_news (dag w).2)) ≤ 1).
Proof.
  intros Hnd. split; [|split; [|split]].
  - intros Hu.
    assert (Hone : length (records_of u (naver_news w)) = 1).
    { pose proof (records_of_unique u _ Hnd). pose proof (records_of_present u _ Hu).
      lia. }
    split.
    + by rewrite hook_run_stored.
    + by rewrite scrape_records_of.
  - intros v. apply records_of_unique. revert w Hnd.
    induction rows as [|r rows IH]; intros w Hnd; [done|].
    cbn [foldl]. by apply IH, hook_run_unique.
  - intros v. by apply records_of_unique, expand_unique.
  - intros v. by apply records_of_unique, dag_unique.
Qed.

(** C2: dedup correctness. With PostgreSQL reachable, [filter_new_urls]
    returns exactly the candidates whose url is not stored, in the order and
    multiplicity of the candidates: a url is returned if and only if it is a
    candidate and no row of the table has it. The table is not changed. *)
Theorem filter_new_urls_exact (urls : list string) (w : world) :
  db_up w (now w) = true →
  (filter_new_urls urls w).1 = Ok (filter (λ u, u ∉ keys (naver_news w)) urls) ∧
  (∀ new_urls, (filter_new_urls urls w).1 = Ok new_urls →
     ∀ u, u ∈ new_urls ↔ u ∈ urls ∧ u ∉ keys (naver_news w)) ∧
  naver_news (filter_new_urls urls w).2 = naver_news w.
Proof using Type.
  intros Hup.
  assert (Hres : (filter_new_urls urls w).1
                 = Ok (filter (λ u, u ∉ keys (naver_news w)) urls)).
  { destruct urls as [|u0 urls']; [done|]. by rewrite filter_new_urls_up. }
  split; [done|]. split.
  - intros new_urls Hnew u. rewrite Hres in Hnew. injection Hnew as <-.
    rewrite list_elem_of_filter. split; intros [? ?]; by split.
  - by destruct (filter_new_urls_frame urls w) as (Ht & _).
Qed.


(** C4, as the code has it: discovery has no handler. If
    [get_urls_from_section] raises for a configured section,
    [get_all_article_urls] raises too and returns no candidate: it raises the
    error of the first section that fails, so this very error when the
    sections before it returned. The downstream tasks do not run, the run
    fails, and nothing is fetched or inserted. *)
Theorem discovery_error_fails_the_run w (sid : Z) (e : exn) :
  sid ∈ range 100 106 → get_urls_from_section sid = Raise e →
  (∃ sid' e', sid' ∈ range 100 106 ∧ get_urls_from_section sid' = Raise e' ∧
     (get_all w).1 = Raise e' ∧
     (dag w).1 = DagRun (Raise e') None []) ∧
  ((∀ s, s ∈ range 100 106 → (s < sid)%Z → is_ok (get_urls_from_section s) = true) →
     (get_all w).1 = Raise e) ∧
  state (dag w).1 = failed ∧
  naver_news (dag w).2 = naver_news w ∧
  inserts (dag w).2 = inserts w ∧
  ∀ u, fetches u (dag w).2 = fetches u w.
Proof.
  intros Hin He.
  destruct (get_all_raise get_urls_from_section w sid e Hin He)
    as (sid' & e' & Hin' & He' & Hres).
  destruct (get_all_frame get_urls_from_section w) as (Ht & _ & Hi & Hf & _).
  split; [|split].
  - exists sid', e'. by rewrite dag_unfold, Hres.
  - intros Hbefore.
    assert (Hsplit : ∃ before after,
      range 100 106 = before ++ sid :: after ∧ ∀ s, s ∈ before → (s < sid)%Z).
    { change (range 100 106) with [100; 101; 102; 103; 104; 105]%Z in Hin |- *.
      repeat (apply elem_of_cons in Hin as [->|Hin]);
        [exists [], [101; 102; 103; 104; 105]%Z
        |exists [100]%Z, [102; 103; 104; 105]%Z
        |exists [100; 101]%Z, [103; 104; 105]%Z
        |exists [100; 101; 102]%Z, [104; 105]%Z
        |exists [100; 101; 102; 103]%Z, [105]%Z
        |exists [100; 101; 102; 103; 104]%Z, []
        |by apply elem_of_nil in Hin];
        (split; [done|]); intros s Hs;
        repeat (apply elem_of_cons in Hs as [->|Hs]; [lia|]);
        by apply elem_of_nil in Hs. }
    destruct Hsplit as (before & after & Hrange & Hlt).
    pose proof (for_section_id_first get_urls_from_section before after sid e [] w)
      as Hfirst.
    rewrite get_all_unfold. rewrite Hrange in Hbefore |- *.
    destruct (for_section_id get_urls_from_section (before ++ sid :: after) [] w)
      as [[all_urls|e0] w0]; cbn [fst] in *.
    + discriminate Hfirst; [|done]. intros s Hs. apply Hbefore; [|by apply Hlt].
      apply elem_of_app. by left.
    + rewrite <- Hfirst; [done| |done]. intros s Hs.
      apply Hbefore; [|by apply Hlt]. apply elem_of_app. by left.
  - by rewrite dag_unfold, Hres.
Qed.

(** C5: filtering. When [get_news_content] returns no article, or an article
    whose title is missing, [None] or empty, [scrape_and_save_news] returns
    right after the fetch: no INSERT is sent (whether or not PostgreSQL could
    be reached) and the table is unchanged. *)
Theorem untitled_never_reaches_store u w (news_data : option (gmap string pyval)) :
  get_news_content u = Ok news_data →
  (news_data = None ∨
   ∃ d, news_data = Some d ∧
        (d !! "title" = None ∨ d !! "title" = Some PyNone
         ∨ d !! "title" = Some (PyStr ""))) →
  scrape u w = (Ok tt, tick (Fetch u) w) ∧
  inserts (scrape u w).2 = inserts w ∧
  naver_news (scrape u w).2 = naver_news w.
Proof.
  intros Hfetch Hno.
  assert (Hskip : no_article_or_no_title news_data = true).
  { destruct Hno as [->|(d & -> & Htitle)]; [done|].
    unfold no_article_or_no_title, dict_get. apply orb_true_iff. right.
    by destruct Htitle as [->|[->| ->]]. }
  by rewrite (scrape_skip _ _ _ _ Hfetch Hskip).
Qed.

(** C6: the union step. The list [get_all_article_urls] returns has no
    duplicates; it holds the urls listed by the sections, and a url listed by
    any section (or by several) occurs in it exactly once. In a whole run
    [get_news_content] is called at most once for any url. *)
Theorem discovered_twice_fetched_once w (unique_urls : list string) :
  (get_all w).1 = Ok unique_urls →
  NoDup unique_urls ∧
  (∀ u, u ∈ unique_urls ↔
     ∃ sid urls, sid ∈ range 100 106 ∧ get_urls_from_section sid = Ok urls ∧ u ∈ urls) ∧
  (∀ u sid urls,
     sid ∈ range 100 106 → get_urls_from_section sid = Ok urls → u ∈ urls →
     length (filter (λ x, x = u) unique_urls) = 1) ∧
  ∀ u, fetches u (dag w).2 ≤ S (fetches u w).
Proof.
  intros Hres. destruct (get_all_ok _ _ _ Hres) as (Hnd & _ & Hmem).
  split; [done|]. split; [done|]. split.
  - intros u sid urls Hin Hget Hu. apply filter_eq_length_NoDup; [done|].
    apply Hmem. by exists sid, urls.
  - intros u. rewrite dag_unfold, Hres.
    destruct (get_all_frame get_urls_from_section w) as (_ & _ & _ & Hf & _).
    rewrite <- Hf. by apply downstream_fetches.
Qed.

(** C7: nothing new. If the candidate list is empty, or PostgreSQL is
    reachable and every candidate is already stored, [filter_new_urls]
    returns the empty list and the rest of the run succeeds with no
    [scrape_and_save_news] instance: nothing is fetched, no INSERT is sent
    and the table is unchanged. *)
Theorem nothing_new_nothing_done all_urls w :
  all_urls = [] ∨
  (db_up w (now w) = true ∧ ∀ u, u ∈ all_urls → u ∈ keys (naver_news w)) →
  (filter_new_urls all_urls w).1 = Ok [] ∧
  state (downstream all_urls w).1 = success ∧
  ti_scrape_and_save_news (downstream all_urls w).1 = [] ∧
  naver_news (downstream all_urls w).2 = naver_news w ∧
  inserts (downstream all_urls w).2 = inserts w ∧
  ∀ u, fetches u (downstream all_urls w).2 = fetches u w.
Proof.
  intros Hcase.
  assert (Hres : (filter_new_urls all_urls w).1 = Ok []).
  { destruct Hcase as [->|[Hup Hall]]; [done|].
    destruct all_urls as [|u0 all_urls']; [done|].
    rewrite filter_new_urls_up by done. cbn [fst]. f_equal.
    apply filter_none. intros u Hu Hnew. by apply Hnew, Hall. }
  destruct (filter_new_urls_frame all_urls w) as (Ht & _ & Hi & Hf & _).
  rewrite downstream_unfold, Hres. by cbn [push_for_expand expand fst snd].
Qed.

(** C8, as the code has it: a run that reaches the fan-out has one
    [scrape_and_save_news] instance per new url, and the instance of a url
    is the outcome of the unit on that url, in the world its predecessors
    left. A unit returns [None] and nothing else when it had no article or
    title to store and when it sent its INSERT to a reachable PostgreSQL,
    whether the row was inserted or met a conflict; it raises when the fetch
    raises, when a field of the article is missing (or the url is [None]) and
    when PostgreSQL cannot be reached. The run succeeds exactly when every
    instance returned. *)
Theorem fan_out_outcomes w all_urls (new_urls : list string) :
  (get_all w).1 = Ok all_urls →
  ti_filter_new_urls (dag w).1 = Some (Ok new_urls) →
  length (ti_scrape_and_save_news (dag w).1) = length new_urls ∧
  (∀ i u, new_urls !! i = Some u →
     ti_scrape_and_save_news (dag w).1 !! i
     = Some (scrape u (expand scrape (take i new_urls)
                         (filter_new_urls all_urls (get_all w).2).2).2).1) ∧
  (state (dag w).1 = success ↔
     ∀ res, res ∈ ti_scrape_and_save_news (dag w).1 → res = Ok tt) ∧
  ∀ u w0,
    match get_news_content u with
    | Raise e => (scrape u w0).1 = Raise e
    | Ok news_data =>
        if no_article_or_no_title news_data then (scrape u w0).1 = Ok tt
        else
          match row_of u with
          | Some _ =>
              (scrape u w0).1
              = if db_up w0 (S (now w0)) then Ok tt else Raise OperationalError
          | None => ∃ e, (scrape u w0).1 = Raise e
          end
    end.
Proof.
  intros Hall. rewrite dag_unfold, Hall. intros Hreached.
  apply downstream_reached in Hreached as (_ & _ & ->).
  cbn [fst ti_scrape_and_save_news].
  split; [apply expand_length|]. split; [intros i u; apply expand_lookup|].
  split; [apply state_fan_out|apply scrape_result].
Qed.


(** C10: an existing record is never overwritten. If the table has a record
    for url [u], running [scrape_and_save_news] on [u] leaves the records of
    [u] (url, title, summary, content, news_time) exactly as they were,
    whatever the crawler fetched this time, and all the rows that were in the
    table are still there, in place. The same holds after any number of
    units. *)
Theorem existing_record_untouched u w urls :
  u ∈ keys (naver_news w) →
  records_of u (naver_news (scrape u w).2) = records_of u (naver_news w) ∧
  naver_news w `prefix_of` naver_news (scrape u w).2 ∧
  records_of u (naver_news (expand scrape urls w).2) = records_of u (naver_news w).
Proof.
  intros Hu. split; [by apply scrape_records_of|].
  split; [apply scrape_prefix|by apply expand_records_of].
Qed.

End claims.

(** ** The claims at work on the newsroom *)

Lemma at_most_one_record_per_url_witness :
  NoDup (keys (naver_news fixture.world_A)) ∧
  (("A" ∈ keys (naver_news fixture.world_A) →
      length (records_of "A" (naver_news
        (hook_run (PyStr "A") (PyStr "new A") (PyStr "s") (PyStr "c") PyNone
           fixture.world_A).2)) = 1 ∧
      length (records_of "A" (naver_news
        (scrape_and_save_news fixture.pages "A" fixture.world_A).2)) = 1) ∧
   (∀ v, length (records_of v (naver_news
      (expand (scrape_and_save_news fixture.pages) ["B"; "C"; "B"; "A"]
         fixture.world_A).2)) ≤ 1) ∧
   (∀ v, length (records_of v (naver_news
      (naver_news_scraping_dag_with_db fixture.listing fixture.pages
         fixture.world_A).2)) ≤ 1)).
Proof.
  assert (Hnd : NoDup (keys (naver_news fixture.world_A))).
  { change (NoDup ["A"]). apply NoDup_singleton. }
  split; [exact Hnd|].
  destruct (at_most_one_record_per_url fixture.listing fixture.pages
              fixture.world_A ["B"; "C"; "B"; "A"] "A" (PyStr "new A") (PyStr "s")
              (PyStr "c") PyNone [fixture.row_A; fixture.row_A] Hnd)
    as (Hstored & _ & Hunits & Hrun).
  repeat split; [apply Hstored..|exact Hunits|exact Hrun].
Defined.

Lemma filter_new_urls_exact_witness :
  db_up fixture.world_A (now fixture.world_A) = true ∧
  (filter_new_urls ["C"; "A"; "B"] fixture.world_A).1 = Ok ["C"; "B"].
Proof.
  split; [reflexivity|].
  exact (proj1 (filter_new_urls_exact ["C"; "A"; "B"] fixture.world_A eq_refl)).
Defined.


Lemma discovery_error_fails_the_run_witness :
  101%Z ∈ range 100 106 ∧
  fixture.listing_101_down 101 = Raise (SourceError "timeout") ∧
  state (naver_news_scraping_dag_with_db fixture.listing_101_down fixture.pages
           fixture.world_A).1 = failed.
Proof.
  assert (Hin : 101%Z ∈ range 100 106).
  { change (101%Z ∈ [100; 101; 102; 103; 104; 105]%Z). right. left. }
  split; [exact Hin|]. split; [reflexivity|].
  exact (proj1 (proj2 (proj2 (discovery_error_fails_the_run
           fixture.listing_101_down fixture.pages fixture.world_A 101
           (SourceError "timeout") Hin eq_refl)))).
Defined.

Lemma untitled_never_reaches_store_witness :
  fixture.pages "D" = Ok (Some (fixture.article "D" "")) ∧
  fixture.article "D" "" !! "title" = Some (PyStr "") ∧
  scrape_and_save_news fixture.pages "D" fixture.world_down
  = (Ok tt, tick (Fetch "D") fixture.world_down).
Proof.
  split; [reflexivity|]. split; [reflexivity|].
  refine (proj1 (untitled_never_reaches_store fixture.pages "D" fixture.world_down
                   (Some (fixture.article "D" "")) eq_refl _)).
  right. exists (fixture.article "D" ""). split; [reflexivity|].
  right. right. reflexivity.
Defined.

Lemma discovered_twice_fetched_once_witness :
  (get_all_article_urls fixture.listing fixture.world_A).1 = Ok ["C"; "A"; "B"] ∧
  length (filter (λ x, x = "B") ["C"; "A"; "B"]) = 1 ∧
  fetches "B"
    (naver_news_scraping_dag_with_db fixture.listing fixture.pages
       fixture.world_A).2
  ≤ S (fetches "B" fixture.world_A).
Proof.
  assert (Hres : (get_all_article_urls fixture.listing fixture.world_A).1
                 = Ok ["C"; "A"; "B"]) by (vm_compute; reflexivity).
  destruct (discovered_twice_fetched_once fixture.listing fixture.pages
              fixture.world_A ["C"; "A"; "B"] Hres) as (_ & _ & Honce & Hfetch).
  split; [exact Hres|]. split; [|exact (Hfetch "B")].
  apply (Honce "B" 101%Z ["B"; "C"]).
  - change (101%Z ∈ [100; 101; 102; 103; 104; 105]%Z). right. left.
  - reflexivity.
  - left.
Defined.

Lemma nothing_new_nothing_done_witness :
  (db_up fixture.world_A (now fixture.world_A) = true ∧
   ∀ u, u ∈ ["A"] → u ∈ keys (naver_news fixture.world_A)) ∧
  (filter_new_urls ["A"] fixture.world_A).1 = Ok [] ∧
  state (downstream fixture.pages ["A"] fixture.world_A).1 = success ∧
  ti_scrape_and_save_news (downstream fixture.pages ["A"] fixture.world_A).1 = [].
Proof.
  assert (Hall : db_up fixture.world_A (now fixture.world_A) = true ∧
                 ∀ u, u ∈ ["A"] → u ∈ keys (naver_news fixture.world_A)).
  { split; [reflexivity|]. intros u Hu. exact Hu. }
  destruct (nothing_new_nothing_done fixture.pages ["A"] fixture.world_A
              (or_intror Hall)) as (Hnew & Hstate & Hunits & _).
  split; [exact Hall|]. split; [exact Hnew|]. split; [exact Hstate|exact Hunits].
Defined.

Lemma fan_out_outcomes_witness :
  (get_all_article_urls fixture.listing fixture.world_A).1 = Ok ["C"; "A"; "B"] ∧
  ti_filter_new_urls
    (naver_news_scraping_dag_with_db fixture.listing
       fixture_more.pages_C_unreadable fixture.world_A).1
  = Some (Ok ["C"; "B"]) ∧
  length (ti_scrape_and_save_news
    (naver_news_scraping_dag_with_db fixture.listing
       fixture_more.pages_C_unreadable fixture.world_A).1) = 2.
Proof.
  assert (Hall : (get_all_article_urls fixture.listing fixture.world_A).1
                 = Ok ["C"; "A"; "B"]) by (vm_compute; reflexivity).
  assert (Hnew : ti_filter_new_urls
    (naver_news_scraping_dag_with_db fixture.listing
       fixture_more.pages_C_unreadable fixture.world_A).1
    = Some (Ok ["C"; "B"])) by (vm_compute; reflexivity).
  split; [exact Hall|]. split; [exact Hnew|].
  exact (proj1 (fan_out_outcomes fixture.listing fixture_more.pages_C_unreadable
                  fixture.world_A ["C"; "A"; "B"] ["C"; "B"] Hall Hnew)).
Defined.


Lemma existing_record_untouched_witness :
  "A" ∈ keys (naver_news fixture.world_A) ∧
  row_of fixture.pages "A"
  = Some (Row "A" (PyStr "new A") (PyStr "s") (PyStr "c") PyNone) ∧
  records_of "A"
    (naver_news (scrape_and_save_news fixture.pages "A" fixture.world_A).2)
  = [fixture.row_A].
Proof.
  assert (Hin : "A" ∈ keys (naver_news fixture.world_A)).
  { change ("A" ∈ ["A"]). left. }
  split; [exact Hin|]. split; [vm_compute; reflexivity|].
  exact (proj1 (existing_record_untouched fixture.pages "A" fixture.world_A
                  ["A"; "B"] Hin)).
Defined.

(** ** Where the code departs from the specification *)

(** C4, as the specification has it, fails: here section 101 raises and
    every other section returns its listing, yet [get_all_article_urls]
    returns no candidate at all (not the A and B of section 100), the
    downstream tasks do not run and the run is failed. *)
Lemma discovery_error_not_isolated :
  fixture.listing_101_down 101 = Raise (SourceError "timeout") ∧
  fixture.listing_101_down 100 = Ok ["A"; "B"] ∧
  (∀ sid, sid ∈ range 100 106 → sid ≠ 101%Z →
          is_ok (fixture.listing_101_down sid) = true) ∧
  (get_all_article_urls fixture.listing_101_down fixture.world_A).1
  = Raise (SourceError "timeout") ∧
  (naver_news_scraping_dag_with_db fixture.listing_101_down fixture.pages
     fixture.world_A).1
  = DagRun (Raise (SourceError "timeout")) None [] ∧
  state (naver_news_scraping_dag_with_db fixture.listing_101_down fixture.pages
           fixture.world_A).1 = failed.
Proof.
  split; [reflexivity|]. split; [reflexivity|]. split.
  - intros sid Hin Hne. unfold fixture.listing_101_down, fixture.listing.
    repeat case_bool_decide; done.
  - split; [vm_compute; reflexivity|]. split; vm_compute; reflexivity.
Qed.

(** C8, as the specification has it, fails: here PostgreSQL is reachable
    throughout, discovery produced the candidates C, A and B and the run
    reached the fan-out with C and B, but the page C could not be fetched.
    The unit of C raised the fetch error and the run is failed; the unit of
    B, which inserted its row, returned [None] like any unit that returns. No
    ledger of Inserted, AlreadyExists, NotFound or FetchError comes out of
    the run. *)
Lemma fetch_error_fails_the_run :
  (∀ n, db_up fixture.world_A n = true) ∧
  (naver_news_scraping_dag_with_db fixture.listing fixture_more.pages_C_unreadable
     fixture.world_A).1
  = DagRun (Ok ["C"; "A"; "B"]) (Some (Ok ["C"; "B"]))
      [Raise (SourceError "HTTP 500"); Ok tt] ∧
  state (naver_news_scraping_dag_with_db fixture.listing
           fixture_more.pages_C_unreadable fixture.world_A).1 = failed ∧
  keys (naver_news (naver_news_scraping_dag_with_db fixture.listing
                      fixture_more.pages_C_unreadable fixture.world_A).2)
  = ["A"; "B"].
Proof. split; [done|]. repeat split; vm_compute; reflexivity. Qed.



(** ** Further properties of the tasks *)

(** *** More on one ingestion unit *)

Section unit_more.

Variable get_news_content : string → result (option (gmap string pyval)).

Implicit Types (u v : string) (w : world) (r : row).

Local Abbreviation scrape := (scrape_and_save_news get_news_content).
Local Abbreviation row_of := (row_of get_news_content).

Lemma row_of_titled u r : row_of u = Some r → truthy (title r) = true.
Proof.
  unfold row_of, no_article_or_no_title, dict_get.
  destruct (get_news_content u) as [[d|]|?]; try done.
  destruct (bool_decide (d = ∅)); simpl; [done|].
  destruct (d !! "url") as [[|?]|]; simpl; try (by destruct (negb _));
  destruct (d !! "title") as [t|]; simpl; try done;
  destruct (truthy t) eqn:Ht; simpl; try done;
  destruct (d !! "summary"); simpl; try done;
  destruct (d !! "content"); simpl; try done;
  destruct (d !! "time"); simpl; try done.
  by intros [= <-].
Qed.

(** A unit adds nothing, or the one row it fetched, whose url was free. *)
Lemma scrape_added u w :
  (naver_news (scrape u w).2 = naver_news w) ∨
  (∃ r, row_of u = Some r ∧ (url r ∉ keys (naver_news w)) ∧
        naver_news (scrape u w).2 = naver_news w ++ [r]).
Proof.
  rewrite scrape_table. destruct (row_of u) as [r|] eqn:Hr; [|by left].
  destruct (db_up w _); simpl; [|by left].
  case_bool_decide; simpl; [by left|]. right. by exists r.
Qed.

Lemma scrape_inserts u w : inserts (scrape u w).2 ≤ S (inserts w).
Proof.
  assert (Hf : inserts (tick (Fetch u) w) = inserts w) by done.
  assert (Hi : ∀ a b c d e, inserts (tick (Insert a b c d e) (tick (Fetch u) w))
               = S (inserts w)) by done.
  unfold scrape_and_save_news, call_get_news_content, dict_item, hook_run.
  unfold_M.
  destruct (get_news_content u) as [[d|]|?]; simpl; rewrite ?Hf; try lia.
  destruct (_ || _); simpl; rewrite ?Hf; try lia.
  destruct (d !! "url") as [[|?]|]; simpl; rewrite ?Hf; try lia;
  destruct (d !! "title"); simpl; rewrite ?Hf; try lia;
  destruct (d !! "summary"); simpl; rewrite ?Hf; try lia;
  destruct (d !! "content"); simpl; rewrite ?Hf; try lia;
  destruct (d !! "time"); simpl; rewrite ?Hf; try lia;
  destruct (db_up w _); simpl; rewrite ?Hi; try lia.
  destruct (bool_decide (_ ∈ _)); simpl; [rewrite Hi; lia|].
  change (inserts (append_row ?r ?w0)) with (inserts w0). rewrite Hi. lia.
Qed.

Lemma scrape_selects u w : selects (scrape u w).2 = selects w.
Proof.
  assert (Hf : selects (tick (Fetch u) w) = selects w) by done.
  assert (Hi : ∀ a b c d e, selects (tick (Insert a b c d e) (tick (Fetch u) w))
               = selects w) by done.
  unfold scrape_and_save_news, call_get_news_content, dict_item, hook_run.
  unfold_M.
  destruct (get_news_content u) as [[d|]|?]; simpl; try done.
  destruct (_ || _); simpl; try done.
  destruct (d !! "url") as [[|?]|]; simpl; try done;
  destruct (d !! "title"); simpl; try done;
  destruct (d !! "summary"); simpl; try done;
  destruct (d !! "content"); simpl; try done;
  destruct (d !! "time"); simpl; try done;
  destruct (db_up w _); simpl; try done.
  destruct (bool_decide (_ ∈ _)); exact (Hi _ _ _ _ _).
Qed.

(** X1: a missing field. When the article has a title but lacks one of the
    fields the INSERT needs, [scrape_and_save_news] raises [KeyError] for the
    first missing one, in the order url, title, summary, content, time. The
    arguments are evaluated before [hook.run] is called, so no INSERT is
    sent and the table is unchanged, whether or not PostgreSQL could be
    reached. *)
Theorem missing_field_raises_KeyError u w (d : gmap string pyval) (k : string) :
  get_news_content u = Ok (Some d) →
  truthy (dict_get d "title") = true →
  head (filter (λ k, d !! k = None) fields) = Some k →
  scrape u w = (Raise (KeyError k), tick (Fetch u) w) ∧
  inserts (scrape u w).2 = inserts w ∧
  naver_news (scrape u w).2 = naver_news w.
Proof.
  intros Hget Htitle Hk.
  assert (Hres : scrape u w = (Raise (KeyError k), tick (Fetch u) w)).
  { revert Hk. unfold scrape_and_save_news, call_get_news_content, dict_item, fields.
    unfold_M. rewrite Hget. cbn [no_article_or_no_title from_option].
    rewrite Htitle. unfold dict_get in Htitle.
    assert (Hne : bool_decide (d = ∅) = false).
    { apply bool_decide_eq_false_2. intros ->. by rewrite lookup_empty in Htitle. }
    rewrite Hne. cbn [negb orb]. cbv zeta. cbn [from_option id].
    rewrite !filter_cons, filter_nil.
    destruct (d !! "url") as [pu|], (d !! "title") as [pt|],
      (d !! "summary") as [ps|], (d !! "content") as [pc|],
      (d !! "time") as [pn|];
      simpl in *; try done; repeat case_decide; try done;
      by intros [= <-]. }
  by rewrite Hres.
Qed.

(** X2: insert, then look up. When a unit sends its row to a reachable
    PostgreSQL and the url of the row is free, the table gains exactly that
    row, with the fields as fetched; from then on the existence check never
    reports that url as new. *)
Theorem inserted_then_found u r w :
  row_of u = Some r → db_up w (S (now w)) = true → url r ∉ keys (naver_news w) →
  (scrape u w).1 = Ok tt ∧
  naver_news (scrape u w).2 = naver_news w ++ [r] ∧
  records_of (url r) (naver_news (scrape u w).2) = [r] ∧
  ∀ urls w2 (new_urls : list string),
    naver_news (scrape u w).2 `prefix_of` naver_news w2 →
    (filter_new_urls urls w2).1 = Ok new_urls → url r ∉ new_urls.
Proof.
  intros Hr Hup Hfree.
  assert (Ht : naver_news (scrape u w).2 = naver_news w ++ [r]).
  { rewrite scrape_table, Hr, Hup. by rewrite bool_decide_eq_false_2. }
  split; [|split; [done|split]].
  - rewrite (scrape_row _ _ _ _ Hr). unfold hook_run.
    change (db_up (tick (Fetch u) w) (now (tick (Fetch u) w)))
      with (db_up w (S (now w))).
    rewrite Hup. by destruct (bool_decide (_ ∈ _)).
  - rewrite Ht, records_of_app, records_of_absent by done.
    unfold records_of. by rewrite filter_cons_True.
  - intros urls w2 new_urls Hpre Hnew Hin.
    assert (Hstored : url r ∈ keys (naver_news w2)).
    { eapply prefix_keys; [done|]. rewrite Ht, keys_app. apply elem_of_app.
      right. by left. }
    destruct urls as [|u0 urls'].
    + rewrite filter_new_urls_nil in Hnew. injection Hnew as <-.
      by apply elem_of_nil in Hin.
    + destruct (db_up w2 (now w2)) eqn:Hup2.
      * rewrite filter_new_urls_up in Hnew by done. injection Hnew as <-.
        by apply list_elem_of_filter in Hin as [? ?].
      * by rewrite filter_new_urls_down in Hnew.
Qed.

(** X3: the key is the fetched url. The row is stored under
    [news_data["url"]], not under the url the unit was given. When the two
    differ and the given url is not stored, it is still not stored after the
    unit, and the existence check reports it as new again. *)
Theorem stored_under_fetched_url u r w :
  row_of u = Some r → url r ≠ u → u ∉ keys (naver_news w) →
  (u ∉ keys (naver_news (scrape u w).2)) ∧
  ∀ w2, naver_news w2 = naver_news (scrape u w).2 → db_up w2 (now w2) = true →
        (filter_new_urls [u] w2).1 = Ok [u].
Proof.
  intros Hr Hne Hnew.
  assert (Hstill : u ∉ keys (naver_news (scrape u w).2)).
  { destruct (scrape_added u w) as [->|(r' & Hr' & _ & ->)]; [done|].
    rewrite keys_app. intros [Hin|Hin]%elem_of_app; [done|].
    apply list_elem_of_singleton in Hin. congruence. }
  split; [done|]. intros w2 Ht Hup. rewrite filter_new_urls_up by done.
  cbn [fst]. rewrite Ht. by rewrite filter_cons_True, filter_nil.
Qed.

(** X6: two units for one article. When the rows of two units have the
    same url, which was free, and PostgreSQL is reachable for the first
    INSERT, the first row is stored and the second is dropped without an
    error: run one after the other, the units leave the table with the first
    row only, and the second unit returns [None] if PostgreSQL is reachable
    for its INSERT. *)
Theorem first_writer_wins u v r r' w :
  row_of u = Some r → row_of v = Some r' → url r = url r' →
  url r ∉ keys (naver_news w) → db_up w (S (now w)) = true →
  naver_news (expand scrape [u; v] w).2 = naver_news w ++ [r] ∧
  (expand scrape [u; v] w).1
  = [Ok tt; if db_up w (S (S (S (now w)))) then Ok tt else Raise OperationalError].
Proof.
  intros Hr Hr' Heq Hfree Hup.
  destruct (inserted_then_found u r w Hr Hup Hfree) as (Hres & Ht & _).
  assert (Hnow : now (scrape u w).2 = S (S (now w))).
  { rewrite (scrape_row _ _ _ _ Hr). unfold hook_run.
    repeat case_match; simpl; by rewrite ?now_tick. }
  assert (Hstored : url r' ∈ keys (naver_news (scrape u w).2)).
  { rewrite Ht, keys_app, <- Heq. apply elem_of_app. right. by left. }
  rewrite !expand_cons. cbn [expand fst snd]. split.
  - rewrite scrape_table, Hr'. rewrite bool_decide_eq_true_2 by done.
    by rewrite andb_false_r.
  - rewrite Hres. do 2 f_equal.
    rewrite (scrape_row _ _ _ _ Hr'). unfold hook_run.
    change (db_up (tick (Fetch v) ?w0) (now (tick (Fetch v) ?w0)))
      with (db_up w0 (S (now w0))).
    rewrite Hnow, scrape_db_up. destruct (db_up w (S (S (S (now w))))); [|done].
    by rewrite bool_decide_eq_true_2 by exact Hstored.
Qed.

End unit_more.

(** *** More on the existence check *)

Lemma filter_all {A} (P : A → Prop) `{!∀ x, Decision (P x)} (l : list A) :
  (∀ x, x ∈ l → P x) → filter P l = l.
Proof.
  induction l as [|a l IH]; intros Hall; [done|].
  rewrite filter_cons_True by (apply Hall; by left). f_equal.
  apply IH. intros x Hx. apply Hall. by right.
Qed.

Lemma filter_new_urls_elem (urls new_urls : list string) (w : world) (u : string) :
  (filter_new_urls urls w).1 = Ok new_urls → u ∈ new_urls →
  u ∈ urls ∧ u ∉ keys (naver_news w).
Proof.
  intros Hres Hu. destruct urls as [|u0 urls'].
  - rewrite filter_new_urls_nil in Hres. injection Hres as <-.
    by apply elem_of_nil in Hu.
  - destruct (db_up w (now w)) eqn:Hup.
    + rewrite filter_new_urls_up in Hres by done. injection Hres as <-.
      by apply list_elem_of_filter in Hu as [? ?].
    + by rewrite filter_new_urls_down in Hres.
Qed.

Lemma filter_new_urls_selects (urls : list string) (w : world) :
  selects (filter_new_urls urls w).2
  = (if bool_decide (urls = []) then 0 else 1) + selects w.
Proof.
  destruct urls as [|u0 urls']; [done|].
  rewrite bool_decide_eq_false_2 by done.
  destruct (db_up w (now w)) eqn:Hup.
  - by rewrite filter_new_urls_up.
  - by rewrite filter_new_urls_down.
Qed.

(** X8: the existence check composes. What [filter_new_urls] returns is a
    sublist of the candidates, in their order, without duplicates if they
    had none. Checking its own answer again against the same table returns
    that answer unchanged, and checking the candidates against a table that
    has grown in the meantime returns a sublist of the earlier answer. *)
Theorem filter_new_urls_idempotent (urls new_urls : list string) (w : world) :
  (filter_new_urls urls w).1 = Ok new_urls →
  new_urls `sublist_of` urls ∧
  (NoDup urls → NoDup new_urls) ∧
  (∀ w2, naver_news w2 = naver_news w → db_up w2 (now w2) = true →
         (filter_new_urls new_urls w2).1 = Ok new_urls) ∧
  (∀ w2 (later : list string),
     naver_news w `prefix_of` naver_news w2 →
     (filter_new_urls urls w2).1 = Ok later → later `sublist_of` new_urls).
Proof.
  intros Hres.
  pose proof (filter_new_urls_sublist urls w new_urls Hres) as Hsub.
  split; [done|]. split; [intros Hnd; by eapply sublist_NoDup|]. split.
  - intros w2 Ht Hup. destruct new_urls as [|u0 new'] eqn:Hnew; [done|].
    rewrite filter_new_urls_up by done. cbn [fst]. f_equal. rewrite Ht.
    apply filter_all. intros x Hx. by eapply filter_new_urls_elem.
  - intros w2 later Hpre Hlater.
    destruct urls as [|u0 urls'].
    + rewrite filter_new_urls_nil in Hlater, Hres. cbn [fst] in *.
      simplify_eq. constructor.
    + destruct (db_up w (now w)) eqn:Hup;
        [|by rewrite filter_new_urls_down in Hres].
      destruct (db_up w2 (now w2)) eqn:Hup2;
        [|by rewrite filter_new_urls_down in Hlater].
      rewrite filter_new_urls_up in Hres, Hlater by done.
      cbn [fst] in *. simplify_eq. clear Hsub.
      generalize (u0 :: urls'). intros l.
      induction l as [|x l IH]; [constructor|].
      rewrite !filter_cons.
      destruct (decide (x ∉ keys (naver_news w2))) as [Hx2|Hx2].
      * rewrite decide_True; [by apply sublist_skip|].
        intros Hx. apply Hx2. by eapply prefix_keys.
      * destruct (decide (x ∉ keys (naver_news w))); [by apply sublist_cons|done].
Qed.

(** *** More on the fan-out *)

Section expand_more.

Variable get_news_content : string → result (option (gmap string pyval)).

Implicit Types (u v : string) (urls : list string) (w : world) (r : row).

Local Abbreviation scrape := (scrape_and_save_news get_news_content).
Local Abbreviation row_of := (row_of get_news_content).

Lemma expand_added urls w :
  ∃ added, naver_news (expand scrape urls w).2 = naver_news w ++ added ∧
    ∀ r, r ∈ added →
      (url r ∉ keys (naver_news w)) ∧ ∃ u, u ∈ urls ∧ row_of u = Some r.
Proof.
  revert w. induction urls as [|u0 urls IH]; intros w.
  - exists []. split; [by rewrite app_nil_r|]. intros r Hr.
    by apply elem_of_nil in Hr.
  - rewrite expand_cons. cbn [snd].
    destruct (IH (scrape u0 w).2) as (added & Ht & Hadded).
    destruct (scrape_added get_news_content u0 w) as [Hsame|(r0 & Hr0 & Hfree & Hnew)].
    + exists added. rewrite Ht, Hsame. split; [done|]. intros r Hr.
      destruct (Hadded r Hr) as (Hfree & u & Hu & Hrow). rewrite Hsame in Hfree.
      split; [done|]. exists u. split; [by right|done].
    + exists (r0 :: added). rewrite Ht, Hnew, <- app_assoc. split; [done|].
      intros r [->|Hr]%elem_of_cons.
      * split; [done|]. exists u0. split; [by left|done].
      * destruct (Hadded r Hr) as (Hfree' & u & Hu & Hrow).
        rewrite Hnew, keys_app in Hfree'. split.
        -- intros Hin. apply Hfree', elem_of_app. by left.
        -- exists u. split; [by right|done].
Qed.

Lemma expand_selects urls w : selects (expand scrape urls w).2 = selects w.
Proof.
  revert w. induction urls as [|u urls IH]; intros w; [done|].
  rewrite expand_cons. cbn [snd]. by rewrite IH, scrape_selects.
Qed.

Lemma expand_inserts urls w :
  inserts (expand scrape urls w).2 ≤ length urls + inserts w.
Proof.
  revert w. induction urls as [|u urls IH]; intros w; [done|].
  rewrite expand_cons. cbn [snd length]. specialize (IH (scrape u w).2).
  pose proof (scrape_inserts get_news_content u w). lia.
Qed.

(** With PostgreSQL reachable, the rows after one unit. *)
Lemma scrape_rows_up u w r :
  db_up w (S (now w)) = true →
  r ∈ naver_news (scrape u w).2 ↔
    r ∈ naver_news w ∨ (row_of u = Some r ∧ url r ∉ keys (naver_news w)).
Proof.
  intros Hup. rewrite scrape_table, Hup.
  destruct (row_of u) as [r0|] eqn:Hr0.
  - case_bool_decide as Hin; cbn [andb negb].
    + split; [by left|]. intros [?|[[= ->] ?]]; done.
    + rewrite elem_of_app, list_elem_of_singleton. split.
      * intros [?| ->]; [by left|by right].
      * intros [?|[[= ->] ?]]; [by left|by right].
  - split; [by left|]. by intros [?|[? ?]].
Qed.

Lemma expand_rows_up urls w :
  (∀ n, now w ≤ n → db_up w n = true) →
  (∀ u1 u2 r1 r2, u1 ∈ urls → u2 ∈ urls →
     row_of u1 = Some r1 → row_of u2 = Some r2 → url r1 = url r2 → r1 = r2) →
  ∀ r, r ∈ naver_news (expand scrape urls w).2 ↔
    r ∈ naver_news w ∨
    ((url r ∉ keys (naver_news w)) ∧ ∃ u, u ∈ urls ∧ row_of u = Some r).
Proof.
  revert w. induction urls as [|u0 urls IH]; intros w Hup Hcons r.
  - cbn [expand snd]. split; [by left|]. intros [?|(_ & u & Hu & _)]; [done|].
    by apply elem_of_nil in Hu.
  - rewrite expand_cons. cbn [snd].
    pose proof (scrape_now get_news_content u0 w) as Hnow.
    assert (Hup0 : db_up w (S (now w)) = true) by (apply Hup; lia).
    rewrite IH; cycle 1.
    { intros n Hn. rewrite scrape_db_up. apply Hup. lia. }
    { intros u1 u2 r1 r2 Hu1 Hu2. apply Hcons; by right. }
    rewrite (scrape_rows_up u0 w r Hup0). split.
    + intros [[Hin|[Hr Hfree]]|(Hfree & u & Hu & Hr)].
      * by left.
      * right. split; [done|]. exists u0. split; [by left|done].
      * right. split.
        -- intros Hin. apply Hfree. eapply prefix_keys; [apply scrape_prefix|done].
        -- exists u. split; [by right|done].
    + intros [Hin|(Hfree & u & [->|Hu]%elem_of_cons & Hr)].
      * by left; left.
      * left; right. done.
      * destruct (decide (url r ∈ keys (naver_news (scrape u0 w).2))) as [Hin|Hout].
        -- left. right. split; [|done].
           apply list_elem_of_fmap in Hin as (r0 & Heq & Hin).
           apply (scrape_rows_up u0 w r0 Hup0) in Hin as [Hin|[Hr0 _]].
           ++ exfalso. apply Hfree. rewrite Heq. apply list_elem_of_fmap.
              by exists r0.
           ++ rewrite Hr0. f_equal.
              apply (Hcons u0 u); [by left|by right|done..].
        -- right. split; [done|]. by exists u.
Qed.

(** With PostgreSQL reachable, the urls stored after the units. *)
Lemma expand_keys_up urls w v :
  (∀ n, now w ≤ n → db_up w n = true) →
  v ∈ keys (naver_news (expand scrape urls w).2) ↔
    v ∈ keys (naver_news w) ∨ ∃ u r, u ∈ urls ∧ row_of u = Some r ∧ url r = v.
Proof.
  revert w. induction urls as [|u0 urls IH]; intros w Hup.
  - cbn [expand snd]. split; [by left|]. intros [?|(u & _ & Hu & _)]; [done|].
    by apply elem_of_nil in Hu.
  - rewrite expand_cons. cbn [snd].
    pose proof (scrape_now get_news_content u0 w) as Hnow.
    assert (Hup0 : db_up w (S (now w)) = true) by (apply Hup; lia).
    rewrite IH by (intros n Hn; rewrite scrape_db_up; apply Hup; lia).
    assert (Hunit : v ∈ keys (naver_news (scrape u0 w).2) ↔
              v ∈ keys (naver_news w) ∨ ∃ r, row_of u0 = Some r ∧ url r = v).
    { rewrite scrape_table, Hup0. destruct (row_of u0) as [r0|] eqn:Hr0.
      - case_bool_decide as Hin; cbn [andb negb].
        + split; [by left|]. intros [?|(r & [= ->] & <-)]; done.
        + rewrite keys_app, elem_of_app. split.
          * intros [?|Hv]; [by left|]. right. exists r0.
            apply list_elem_of_singleton in Hv. by subst.
          * intros [?|(r & [= ->] & <-)]; [by left|right; by left].
      - split; [by left|]. by intros [?|(? & ? & ?)]. }
    rewrite Hunit. split.
    + intros [[?|(r & Hr & Hv)]|(u & r & Hu & Hr & Hv)].
      * by left.
      * right. exists u0, r. split; [by left|done].
      * right. exists u, r. split; [by right|done].
    + intros [?|(u & r & [->|Hu]%elem_of_cons & Hr & Hv)].
      * by left; left.
      * left; right. by exists r.
      * right. by exists u, r.
Qed.

(** X7: the order of the units. With PostgreSQL reachable, the urls stored
    after the fan-out do not depend on the order (or the repetitions) in
    which the units run. If moreover the urls of the table are unique and
    units that fetch the same url fetch the same row, the tables are equal
    up to the order of their rows. *)
Theorem fan_out_order_irrelevant (urls urls' : list string) w :
  (∀ u, u ∈ urls ↔ u ∈ urls') →
  (∀ n, now w ≤ n → db_up w n = true) →
  (∀ v, v ∈ keys (naver_news (expand scrape urls w).2) ↔
        v ∈ keys (naver_news (expand scrape urls' w).2)) ∧
  (NoDup (keys (naver_news w)) →
   (∀ u1 u2 r1 r2, u1 ∈ urls → u2 ∈ urls →
      row_of u1 = Some r1 → row_of u2 = Some r2 → url r1 = url r2 → r1 = r2) →
   naver_news (expand scrape urls w).2 ≡ₚ naver_news (expand scrape urls' w).2).
Proof.
  intros Hsame Hup. split.
  - intros v. rewrite !expand_keys_up by done.
    split; intros [?|(u & r & Hu & ?)]; [by left| |by left|];
      right; exists u, r; (split; [by apply Hsame|done]).
  - intros Hnd Hcons. apply NoDup_Permutation.
    + eapply NoDup_fmap_1. by apply expand_unique.
    + eapply NoDup_fmap_1. by apply expand_unique.
    + intros r. rewrite !expand_rows_up; [|done| |done|done].
      * split; intros [?|(? & u & Hu & ?)]; [by left| |by left|];
          right; (split; [done|]); exists u; (split; [by apply Hsame|done]).
      * intros u1 u2 r1 r2 Hu1 Hu2. apply Hcons; by apply Hsame.
Qed.

End expand_more.

(** *** More on discovery *)

Section discovery_more.

Variable get_urls_from_section : Z → result (list string).

Implicit Types (section_ids : list Z) (all_urls : list string) (w : world).

Local Abbreviation for_section_id := (for_section_id get_urls_from_section).
Local Abbreviation get_all := (get_all_article_urls get_urls_from_section).

Lemma for_section_id_total section_ids all_urls w :
  (∀ s, s ∈ section_ids → is_ok (get_urls_from_section s) = true) →
  ∃ res, (for_section_id section_ids all_urls w).1 = Ok res.
Proof.
  revert all_urls w.
  induction section_ids as [|sid section_ids IH]; intros all_urls w Hok.
  - by exists all_urls.
  - rewrite for_section_id_cons.
    assert (Hsid : is_ok (get_urls_from_section sid) = true) by (apply Hok; by left).
    destruct (get_urls_from_section sid) as [urls|e]; [|done].
    apply IH. intros s Hs. apply Hok. by right.
Qed.

Lemma get_all_total w :
  (∀ s, s ∈ range 100 106 → is_ok (get_urls_from_section s) = true) →
  ∃ unique_urls, (get_all w).1 = Ok unique_urls.
Proof.
  intros Hok. destruct (for_section_id_total _ [] w Hok) as (res & Hres).
  rewrite get_all_unfold.
  destruct (for_section_id (range 100 106) [] w) as [[all_urls|e] w']; [|done].
  by eexists.
Qed.

Lemma for_section_id_trace_ok section_ids all_urls w :
  (∀ s, s ∈ section_ids → is_ok (get_urls_from_section s) = true) →
  trace (for_section_id section_ids all_urls w).2
  = reverse (Discover <$> section_ids) ++ trace w.
Proof.
  revert all_urls w.
  induction section_ids as [|sid section_ids IH]; intros all_urls w Hok; [done|].
  rewrite for_section_id_cons.
  assert (Hsid : is_ok (get_urls_from_section sid) = true) by (apply Hok; by left).
  destruct (get_urls_from_section sid) as [urls|e]; [|done].
  rewrite IH by (intros s Hs; apply Hok; by right).
  cbn [fmap list_fmap trace tick]. by rewrite reverse_cons, <- app_assoc.
Qed.

Lemma for_section_id_trace_first (before after : list Z) (sid : Z) (e : exn)
    all_urls w :
  (∀ s, s ∈ before → is_ok (get_urls_from_section s) = true) →
  get_urls_from_section sid = Raise e →
  trace (for_section_id (before ++ sid :: after) all_urls w).2
  = reverse (Discover <$> (before ++ [sid])) ++ trace w.
Proof.
  revert all_urls w. induction before as [|s before IH]; intros all_urls w Hok He.
  - simpl app. by rewrite for_section_id_cons, He.
  - simpl app. rewrite for_section_id_cons.
    assert (Hs : is_ok (get_urls_from_section s) = true) by (apply Hok; by left).
    destruct (get_urls_from_section s); [|done].
    rewrite IH by (try done; intros s' Hs'; apply Hok; by right).
    cbn [fmap list_fmap trace tick]. by rewrite reverse_cons, <- app_assoc.
Qed.

Lemma get_all_trace w :
  trace (get_all w).2 = trace (for_section_id (range 100 106) [] w).2.
Proof.
  rewrite get_all_unfold.
  by destruct (for_section_id (range 100 106) [] w) as [[all_urls|e] w'].
Qed.

Lemma for_section_id_selects section_ids all_urls w :
  selects (for_section_id section_ids all_urls w).2 = selects w.
Proof.
  revert all_urls w.
  induction section_ids as [|sid section_ids IH]; intros all_urls w; [done|].
  rewrite for_section_id_cons.
  destruct (get_urls_from_section sid) as [urls|e]; [by rewrite IH|done].
Qed.

Lemma get_all_selects w : selects (get_all w).2 = selects w.
Proof.
  unfold selects. rewrite get_all_trace.
  apply (for_section_id_selects (range 100 106) [] w).
Qed.

(** X9: the sections visited. When no listing fails,
    [get_all_article_urls] calls [get_urls_from_section] for the sections
    100, 101, 102, 103, 104 and 105, once each and in this order, and does
    nothing else to the outside. *)
Theorem every_section_visited_once w :
  (∀ s, s ∈ range 100 106 → is_ok (get_urls_from_section s) = true) →
  trace (get_all w).2
  = [Discover 105; Discover 104; Discover 103; Discover 102; Discover 101;
     Discover 100] ++ trace w.
Proof.
  intros Hok. rewrite get_all_trace.
  by rewrite (for_section_id_trace_ok (range 100 106) [] w Hok).
Qed.

(** X10: discovery stops at the first error. When the listing of a section
    fails and the listings of the sections before it did not, the sections
    after it are not visited: the calls made are those for the sections from
    100 up to the failing one, in order. *)
Theorem discovery_stops_at_first_error w (sid : Z) (e : exn) :
  sid ∈ range 100 106 → get_urls_from_section sid = Raise e →
  (∀ s, s ∈ range 100 106 → (s < sid)%Z → is_ok (get_urls_from_section s) = true) →
  trace (get_all w).2
  = reverse (Discover <$> seqZ 100 (sid - 99)) ++ trace w ∧
  ∀ s, (sid < s)%Z → Discover s ∉ reverse (Discover <$> seqZ 100 (sid - 99)).
Proof.
  intros Hin He Hbefore. rewrite get_all_trace.
  change (range 100 106) with [100; 101; 102; 103; 104; 105]%Z in Hin, Hbefore |- *.
  assert (Hsplit : ∃ before after,
    [100; 101; 102; 103; 104; 105]%Z = before ++ sid :: after ∧
    seqZ 100 (sid - 99) = before ++ [sid] ∧
    ∀ s, s ∈ before → (s < sid)%Z).
  { repeat (apply elem_of_cons in Hin as [->|Hin]);
      [exists [], [101; 102; 103; 104; 105]%Z
      |exists [100]%Z, [102; 103; 104; 105]%Z
      |exists [100; 101]%Z, [103; 104; 105]%Z
      |exists [100; 101; 102]%Z, [104; 105]%Z
      |exists [100; 101; 102; 103]%Z, [105]%Z
      |exists [100; 101; 102; 103; 104]%Z, []
      |by apply elem_of_nil in Hin];
      (split; [done|]); (split; [done|]); intros s Hs;
      repeat (apply elem_of_cons in Hs as [->|Hs]; [lia|]);
      by apply elem_of_nil in Hs. }
  destruct Hsplit as (before & after & Hrange & Hseq & Hlt).
  rewrite Hseq. split.
  - rewrite Hrange. apply for_section_id_trace_first with (e := e); [|done].
    intros s Hs. apply Hbefore; [|by apply Hlt]. rewrite Hrange.
    apply elem_of_app. by left.
  - intros s Hs Hvisited. apply elem_of_reverse, list_elem_of_fmap in Hvisited
      as (s' & [= <-] & [Hs'|Hs']%elem_of_app).
    + specialize (Hlt s Hs'). lia.
    + apply list_elem_of_singleton in Hs'. lia.
Qed.

End discovery_more.

(** *** More on a whole run *)

Section run_more.

Variable get_urls_from_section : Z → result (list string).
Variable get_news_content : string → result (option (gmap string pyval)).

Implicit Types (u v : string) (urls all_urls : list string) (w : world) (r : row).

Local Abbreviation get_all := (get_all_article_urls get_urls_from_section).
Local Abbreviation scrape := (scrape_and_save_news get_news_content).
Local Abbreviation row_of := (row_of get_news_content).
Local Abbreviation downstream := (downstream get_news_content).
Local Abbreviation dag :=
  (naver_news_scraping_dag_with_db get_urls_from_section get_news_content).

(** The three ways a run can go: discovery fails; the existence check
    fails, or returns too many urls for [expand]; the units run. *)
Lemma dag_cases w :
  (∃ e, (get_all w).1 = Raise e ∧
        dag w = (DagRun (Raise e) None [], (get_all w).2)) ∨
  (∃ all_urls e, (get_all w).1 = Ok all_urls ∧
        push_for_expand (filter_new_urls all_urls (get_all w).2).1 = Raise e ∧
        dag w = (DagRun (Ok all_urls) (Some (Raise e)) [],
                 (filter_new_urls all_urls (get_all w).2).2)) ∨
  (∃ all_urls new_urls, (get_all w).1 = Ok all_urls ∧
        (filter_new_urls all_urls (get_all w).2).1 = Ok new_urls ∧
        dag w = (DagRun (Ok all_urls) (Some (Ok new_urls))
                   (expand scrape new_urls
                      (filter_new_urls all_urls (get_all w).2).2).1,
                 (expand scrape new_urls
                    (filter_new_urls all_urls (get_all w).2).2).2)).
Proof.
  rewrite dag_unfold. destruct (get_all w).1 as [all_urls|e] eqn:Hall.
  - right. rewrite downstream_unfold.
    destruct (push_for_expand _) as [new_urls|e] eqn:Hnew.
    + right. apply push_for_expand_Ok in Hnew as [Hnew _].
      by exists all_urls, new_urls.
    + left. by exists all_urls, e.
  - left. by exists e.
Qed.

Lemma dag_added w :
  ∃ added, naver_news (dag w).2 = naver_news w ++ added ∧
    ∀ r, r ∈ added →
      truthy (title r) = true ∧ (url r ∉ keys (naver_news w)) ∧
      ∃ u sid urls, sid ∈ range 100 106 ∧ get_urls_from_section sid = Ok urls ∧
        u ∈ urls ∧ (u ∉ keys (naver_news w)) ∧ row_of u = Some r.
Proof.
  destruct (get_all_frame get_urls_from_section w) as (Hta & _).
  assert (Hnone : ∀ w', naver_news w' = naver_news w →
    ∃ added, naver_news w' = naver_news w ++ added ∧
      ∀ r, r ∈ added →
        truthy (title r) = true ∧ (url r ∉ keys (naver_news w)) ∧
        ∃ u sid urls, sid ∈ range 100 106 ∧ get_urls_from_section sid = Ok urls ∧
          u ∈ urls ∧ (u ∉ keys (naver_news w)) ∧ row_of u = Some r).
  { intros w' Ht. exists []. rewrite app_nil_r. split; [done|].
    intros r Hr. by apply elem_of_nil in Hr. }
  destruct (dag_cases w) as [(e & _ & ->)|[(all_urls & e & _ & _ & ->)
    |(all_urls & new_urls & Hall & Hnew & ->)]]; cbn [snd].
  - by apply Hnone.
  - apply Hnone.
    by destruct (filter_new_urls_frame all_urls (get_all w).2) as (-> & _).
  - destruct (filter_new_urls_frame all_urls (get_all w).2) as (Htf & _).
    destruct (expand_added get_news_content new_urls
                (filter_new_urls all_urls (get_all w).2).2)
      as (added & Ht & Hadded).
    rewrite Htf, Hta in Ht, Hadded. exists added. split; [done|].
    intros r Hr. destruct (Hadded r Hr) as (Hfree & u & Hu & Hrow).
    split; [by eapply row_of_titled|]. split; [done|].
    destruct (filter_new_urls_elem _ _ _ u Hnew Hu) as [Hcand Hunseen].
    rewrite Hta in Hunseen.
    destruct (get_all_ok _ _ _ Hall) as (_ & _ & Hmem).
    apply Hmem in Hcand as (sid & urls & Hsid & Hget & Hin).
    by exists u, sid, urls.
Qed.

(** X4: what a run adds. A run only appends to the table: the rows that
    were there stay, in place. Every row it adds has a title, a url that was
    not stored, and is the row fetched for a url that some section listed
    and that was not stored. So if every stored row had a title before the
    run, every stored row has one after it. *)
Theorem run_adds_only_fetched_rows w :
  (∃ added, naver_news (dag w).2 = naver_news w ++ added ∧
     ∀ r, r ∈ added →
       truthy (title r) = true ∧ (url r ∉ keys (naver_news w)) ∧
       ∃ u sid urls, sid ∈ range 100 106 ∧ get_urls_from_section sid = Ok urls ∧
         u ∈ urls ∧ (u ∉ keys (naver_news w)) ∧ row_of u = Some r) ∧
  (Forall (λ r, truthy (title r) = true) (naver_news w) →
   Forall (λ r, truthy (title r) = true) (naver_news (dag w).2)).
Proof.
  destruct (dag_added w) as (added & Ht & Hadded). split; [by exists added|].
  intros Htitled. rewrite Ht. apply Forall_app. split; [done|].
  apply Forall_forall. intros r Hr. by destruct (Hadded r Hr) as (? & _).
Qed.

(** X5: nothing new is left behind. If discovery returns its candidates,
    no more than [max_map_length] of them are new, and PostgreSQL is
    reachable whenever the run calls it, for its SELECT and for each of its
    INSERTs, then for every listed url that was not stored and whose page
    gives a row, the url of that row is stored after the run, whatever
    happened to the units of the other urls. *)
Theorem reachable_run_stores_every_new_article w all_urls u r (sid : Z) urls :
  (get_all w).1 = Ok all_urls →
  length (filter (λ u, u ∉ keys (naver_news w)) all_urls) ≤ max_map_length →
  db_answered w (dag w).2 →
  sid ∈ range 100 106 → get_urls_from_section sid = Ok urls → u ∈ urls →
  u ∉ keys (naver_news w) → row_of u = Some r →
  url r ∈ keys (naver_news (dag w).2).
Proof.
  intros Hall Hlen Hup Hsid Hget Hu Hnew Hr.
  destruct (get_all_ok _ _ _ Hall) as (_ & _ & Hmem).
  destruct (get_all_frame get_urls_from_section w) as (Hta & Hdba & _ & _ & Hna).
  revert Hup. rewrite dag_unfold, Hall. intros Hup.
  apply downstream_stores with (u := u); [|by rewrite Hta| |by rewrite Hta|done].
  - intros n e Hn Hcall Hdb. rewrite Hdba. apply (Hup n e); [lia|done..].
  - apply Hmem. by exists sid, urls.
Qed.


(** X12: round trips to PostgreSQL. Whatever the number of candidates, a
    run sends at most one SELECT, and none when discovery fails or finds
    nothing; it sends at most one INSERT per unit. *)
Theorem run_round_trips w :
  selects (dag w).2 ≤ S (selects w) ∧
  (ti_get_all_article_urls (dag w).1 ≠ Ok [] →
   is_ok (ti_get_all_article_urls (dag w).1) = true →
   selects (dag w).2 = S (selects w)) ∧
  (ti_get_all_article_urls (dag w).1 = Ok [] ∨
   is_ok (ti_get_all_article_urls (dag w).1) = false →
   selects (dag w).2 = selects w ∧ inserts (dag w).2 = inserts w) ∧
  inserts (dag w).2 ≤ length (ti_scrape_and_save_news (dag w).1) + inserts w.
Proof.
  destruct (get_all_frame get_urls_from_section w) as (_ & _ & Hia & _).
  pose proof (get_all_selects get_urls_from_section w) as Hsa.
  destruct (dag_cases w) as [(e & _ & ->)|[(all_urls & e & _ & Hnew & ->)
    |(all_urls & new_urls & Hall & Hnew & ->)]];
    cbn [fst snd ti_get_all_article_urls ti_scrape_and_save_news is_ok length].
  - rewrite Hsa, Hia. split; [lia|]. split; [done|]. split; [done|lia].
  - destruct (filter_new_urls_frame all_urls (get_all w).2) as (_ & _ & Hif & _).
    rewrite filter_new_urls_selects, Hsa, Hif, Hia.
    destruct all_urls as [|u0 all_urls'].
    + rewrite filter_new_urls_nil in Hnew. vm_compute in Hnew. discriminate Hnew.
    + rewrite bool_decide_eq_false_2 by done.
      split; [lia|]. split; [intros _ _; lia|]. split; [by intros [?|?]|lia].
  - destruct (filter_new_urls_frame all_urls (get_all w).2) as (_ & _ & Hif & _).
    pose proof (expand_inserts get_news_content new_urls
                  (filter_new_urls all_urls (get_all w).2).2) as Hie.
    rewrite expand_selects, filter_new_urls_selects, Hsa, expand_length.
    rewrite Hif, Hia in Hie.
    destruct all_urls as [|u0 all_urls'].
    + rewrite filter_new_urls_nil in Hnew. cbn [fst] in Hnew. simplify_eq.
      cbn [expand snd]. rewrite filter_new_urls_nil. cbn [snd].
      rewrite Hia, bool_decide_eq_true_2 by done. cbn [length].
      split; [lia|]. split; [done|]. split; [done|lia].
    + rewrite bool_decide_eq_false_2 by done.
      split; [lia|]. split; [intros _ _; lia|]. split; [by intros [?|?]|lia].
Qed.

End run_more.

(** *** The further properties at work on the newsrooms *)

Lemma missing_field_raises_KeyError_witness :
  fixture_more.pages_no_summary "B"
  = Ok (Some (delete "summary" (fixture.article "B" "new B"))) ∧
  truthy (dict_get (delete "summary" (fixture.article "B" "new B")) "title") = true ∧
  head (filter (λ k, delete "summary" (fixture.article "B" "new B") !! k = None)
          fields) = Some "summary" ∧
  scrape_and_save_news fixture_more.pages_no_summary "B" fixture.world_down
  = (Raise (KeyError "summary"), tick (Fetch "B") fixture.world_down).
Proof.
  assert (Hfirst : head (filter
    (λ k, delete "summary" (fixture.article "B" "new B") !! k = None) fields)
    = Some "summary") by (vm_compute; reflexivity).
  split; [reflexivity|]. split; [reflexivity|]. split; [exact Hfirst|].
  exact (proj1 (missing_field_raises_KeyError fixture_more.pages_no_summary "B"
                  fixture.world_down _ "summary" eq_refl eq_refl Hfirst)).
Defined.

Lemma inserted_then_found_witness :
  row_of fixture.pages "B"
  = Some (Row "B" (PyStr "new B") (PyStr "s") (PyStr "c") PyNone) ∧
  db_up fixture.world_A (S (now fixture.world_A)) = true ∧
  ("B" ∉ keys (naver_news fixture.world_A)) ∧
  naver_news (scrape_and_save_news fixture.pages "B" fixture.world_A).2
  = [fixture.row_A; Row "B" (PyStr "new B") (PyStr "s") (PyStr "c") PyNone].
Proof.
  assert (Hrow : row_of fixture.pages "B"
                 = Some (Row "B" (PyStr "new B") (PyStr "s") (PyStr "c") PyNone))
    by (vm_compute; reflexivity).
  assert (Hfree : "B" ∉ keys (naver_news fixture.world_A)).
  { change ("B" ∉ ["A"]). intros Hin. apply list_elem_of_singleton in Hin.
    discriminate Hin. }
  split; [exact Hrow|]. split; [reflexivity|]. split; [exact Hfree|].
  exact (proj1 (proj2 (inserted_then_found fixture.pages "B" _ fixture.world_A
                         Hrow eq_refl Hfree))).
Defined.

Lemma stored_under_fetched_url_witness :
  row_of fixture_more.pages_canonical "B"
  = Some (Row "canonical/B" (PyStr "new B") (PyStr "s") (PyStr "c") PyNone) ∧
  "canonical/B" ≠ "B" ∧
  ("B" ∉ keys (naver_news fixture.world_A)) ∧
  "B" ∉ keys (naver_news
    (scrape_and_save_news fixture_more.pages_canonical "B" fixture.world_A).2).
Proof.
  assert (Hrow : row_of fixture_more.pages_canonical "B"
    = Some (Row "canonical/B" (PyStr "new B") (PyStr "s") (PyStr "c") PyNone))
    by (vm_compute; reflexivity).
  assert (Hne : "canonical/B" ≠ "B") by discriminate.
  assert (Hfree : "B" ∉ keys (naver_news fixture.world_A)).
  { change ("B" ∉ ["A"]). intros Hin. apply list_elem_of_singleton in Hin.
    discriminate Hin. }
  split; [exact Hrow|]. split; [exact Hne|]. split; [exact Hfree|].
  exact (proj1 (stored_under_fetched_url fixture_more.pages_canonical "B" _
                  fixture.world_A Hrow Hne Hfree)).
Defined.

Lemma first_writer_wins_witness :
  row_of fixture_more.pages_alias "B"
  = Some (Row "B" (PyStr "new B") (PyStr "s") (PyStr "c") PyNone) ∧
  row_of fixture_more.pages_alias "B2"
  = Some (Row "B" (PyStr "new B2") (PyStr "s") (PyStr "c") PyNone) ∧
  ("B" ∉ keys (naver_news fixture.world_A)) ∧
  db_up fixture.world_A (S (now fixture.world_A)) = true ∧
  naver_news (expand (scrape_and_save_news fixture_more.pages_alias) ["B"; "B2"]
                fixture.world_A).2
  = [fixture.row_A; Row "B" (PyStr "new B") (PyStr "s") (PyStr "c") PyNone] ∧
  (expand (scrape_and_save_news fixture_more.pages_alias) ["B"; "B2"]
     fixture.world_A).1 = [Ok tt; Ok tt].
Proof.
  assert (Hrow : row_of fixture_more.pages_alias "B"
    = Some (Row "B" (PyStr "new B") (PyStr "s") (PyStr "c") PyNone))
    by (vm_compute; reflexivity).
  assert (Hrow' : row_of fixture_more.pages_alias "B2"
    = Some (Row "B" (PyStr "new B2") (PyStr "s") (PyStr "c") PyNone))
    by (vm_compute; reflexivity).
  assert (Hfree : "B" ∉ keys (naver_news fixture.world_A)).
  { change ("B" ∉ ["A"]). intros Hin. apply list_elem_of_singleton in Hin.
    discriminate Hin. }
  split; [exact Hrow|]. split; [exact Hrow'|]. split; [exact Hfree|].
  split; [reflexivity|].
  exact (first_writer_wins fixture_more.pages_alias "B" "B2" _ _ fixture.world_A
           Hrow Hrow' eq_refl Hfree eq_refl).
Defined.

Lemma filter_new_urls_idempotent_witness :
  (filter_new_urls ["C"; "A"; "B"] fixture.world_A).1 = Ok ["C"; "B"] ∧
  (filter_new_urls ["C"; "B"] fixture.world_A).1 = Ok ["C"; "B"].
Proof.
  assert (Hres : (filter_new_urls ["C"; "A"; "B"] fixture.world_A).1
                 = Ok ["C"; "B"]) by (vm_compute; reflexivity).
  split; [exact Hres|].
  exact (proj1 (proj2 (proj2 (filter_new_urls_idempotent ["C"; "A"; "B"]
           ["C"; "B"] fixture.world_A Hres))) fixture.world_A eq_refl eq_refl).
Defined.

Lemma fan_out_order_irrelevant_witness :
  (∀ u, u ∈ ["B"; "C"] ↔ u ∈ ["C"; "B"; "B"]) ∧
  (∀ n, now fixture.world_A ≤ n → db_up fixture.world_A n = true) ∧
  ∀ v,
    v ∈ keys (naver_news (expand (scrape_and_save_news fixture.pages)
                            ["B"; "C"] fixture.world_A).2) ↔
    v ∈ keys (naver_news (expand (scrape_and_save_news fixture.pages)
                            ["C"; "B"; "B"] fixture.world_A).2).
Proof.
  assert (Hsame : ∀ u, u ∈ ["B"; "C"] ↔ u ∈ ["C"; "B"; "B"]).
  { intros u. rewrite !elem_of_cons, elem_of_nil. tauto. }
  assert (Hup : ∀ n, now fixture.world_A ≤ n → db_up fixture.world_A n = true).
  { intros n _. reflexivity. }
  split; [exact Hsame|]. split; [exact Hup|].
  exact (proj1 (fan_out_order_irrelevant fixture.pages ["B"; "C"] ["C"; "B"; "B"]
                  fixture.world_A Hsame Hup)).
Defined.

Lemma every_section_visited_once_witness :
  (∀ s, s ∈ range 100 106 → is_ok (fixture.listing s) = true) ∧
  trace (get_all_article_urls fixture.listing fixture.world_A).2
  = [Discover 105; Discover 104; Discover 103; Discover 102; Discover 101;
     Discover 100].
Proof.
  assert (Hok : ∀ s, s ∈ range 100 106 → is_ok (fixture.listing s) = true).
  { intros s _. unfold fixture.listing.
    destruct (bool_decide (s = 100%Z)); [reflexivity|].
    destruct (bool_decide (s = 101%Z)); reflexivity. }
  split; [exact Hok|].
  exact (every_section_visited_once fixture.listing fixture.world_A Hok).
Defined.

Lemma discovery_stops_at_first_error_witness :
  101%Z ∈ range 100 106 ∧
  fixture.listing_101_down 101 = Raise (SourceError "timeout") ∧
  (∀ s, s ∈ range 100 106 → (s < 101)%Z →
        is_ok (fixture.listing_101_down s) = true) ∧
  trace (get_all_article_urls fixture.listing_101_down fixture.world_A).2
  = [Discover 101; Discover 100].
Proof.
  assert (Hin : 101%Z ∈ range 100 106).
  { change (101%Z ∈ [100; 101; 102; 103; 104; 105]%Z). right. left. }
  assert (Hbefore : ∀ s, s ∈ range 100 106 → (s < 101)%Z →
                         is_ok (fixture.listing_101_down s) = true).
  { intros s _ Hlt. unfold fixture.listing_101_down, fixture.listing.
    destruct (bool_decide (s = 101%Z)) eqn:Heq.
    - apply bool_decide_eq_true_1 in Heq. lia.
    - destruct (bool_decide (s = 100%Z)); reflexivity. }
  split; [exact Hin|]. split; [reflexivity|]. split; [exact Hbefore|].
  exact (proj1 (discovery_stops_at_first_error fixture.listing_101_down
                  fixture.world_A 101 (SourceError "timeout") Hin eq_refl Hbefore)).
Defined.

Lemma reachable_run_stores_every_new_article_witness :
  (get_all_article_urls fixture.listing fixture_more.world_late).1
  = Ok ["C"; "A"; "B"] ∧
  length (filter (λ u, u ∉ keys (naver_news fixture_more.world_late))
            ["C"; "A"; "B"]) ≤ max_map_length ∧
  db_answered fixture_more.world_late
    (naver_news_scraping_dag_with_db fixture.listing
       fixture_more.pages_C_unreadable fixture_more.world_late).2 ∧
  100%Z ∈ range 100 106 ∧
  fixture.listing 100 = Ok ["A"; "B"] ∧
  "B" ∈ ["A"; "B"] ∧
  ("B" ∉ keys (naver_news fixture_more.world_late)) ∧
  row_of fixture_more.pages_C_unreadable "B"
  = Some (Row "B" (PyStr "new B") (PyStr "s") (PyStr "c") PyNone) ∧
  "B" ∈ keys (naver_news
    (naver_news_scraping_dag_with_db fixture.listing
       fixture_more.pages_C_unreadable fixture_more.world_late).2).
Proof.
  assert (Hall : (get_all_article_urls fixture.listing fixture_more.world_late).1
                 = Ok ["C"; "A"; "B"]) by (vm_compute; reflexivity).
  assert (Hlen : length (filter (λ u, u ∉ keys (naver_news fixture_more.world_late))
                           ["C"; "A"; "B"]) ≤ max_map_length).
  { apply Nat.leb_le. vm_compute. reflexivity. }
  assert (Hup : db_answered fixture_more.world_late
    (naver_news_scraping_dag_with_db fixture.listing
       fixture_more.pages_C_unreadable fixture_more.world_late).2).
  { intros n e _ Hcall Hdb. destruct n as [|n]; [|reflexivity].
    vm_compute in Hcall. injection Hcall as <-. discriminate Hdb. }
  assert (Hsid : 100%Z ∈ range 100 106).
  { change (100%Z ∈ [100; 101; 102; 103; 104; 105]%Z). left. }
  assert (Hu : "B" ∈ ["A"; "B"]) by (right; left).
  assert (Hfree : "B" ∉ keys (naver_news fixture_more.world_late)).
  { change ("B" ∉ ["A"]). intros Hin. apply list_elem_of_singleton in Hin.
    discriminate Hin. }
  assert (Hrow : row_of fixture_more.pages_C_unreadable "B"
                 = Some (Row "B" (PyStr "new B") (PyStr "s") (PyStr "c") PyNone))
    by (vm_compute; reflexivity).
  repeat (split; [first [exact Hall|exact Hlen|exact Hup|exact Hsid|reflexivity
                        |exact Hu|exact Hfree|exact Hrow]|]).
  exact (reachable_run_stores_every_new_article fixture.listing
           fixture_more.pages_C_unreadable fixture_more.world_late
           ["C"; "A"; "B"] "B" _ 100 ["A"; "B"]
           Hall Hlen Hup Hsid eq_refl Hu Hfree Hrow).
Defined.
